(** * CompLens analysis server: the run controller of [server.ts]

    A shallow embedding of the tool-call interceptor, the approval gate,
    the progress estimator and the single-flight scheduler of
    [src/server.ts], with the properties of the natural-language
    specification stated and settled against it.

    Conventions of the embedding.
    - JavaScript numbers that the code only counts, compares and divides
      are integers of [Z]; [Math.round (a / b * 100)] is computed on exact
      rationals (see [pct]).
    - [Map] objects are stdpp [gmap]s keyed by strings.
    - [console.log]/[console.warn] lines that the properties mention are
      entries of a [console] list kept in the run state.
    - The event stream of [agent.runTask] is a list of [stream_item]s; each
      yielded event carries the wall-clock time at which it is delivered.
    - [checkpointManager.createCheckpoint] is an oracle: a list of
      outcomes (time taken, id or failure) consumed call by call. *)

From Stdlib Require Import ZArith.
From stdpp Require Import gmap strings list.

Set Warnings "-register-all".
Open Scope Z_scope.

(** ** JavaScript values *)

Inductive json : Type :=
| JUndefined
| JNull
| JBool (b : bool)
| JNum (n : Z)
| JStr (s : string)
| JArr (items : list json)
| JObj (fields : list (string * json)).


(** [a ?? b]. *)
Definition nullish (a b : json) : json :=
  match a with
  | JUndefined | JNull => b
  | _ => a
  end.







(** ** The [fix-firecrawl-search] interceptor (server.ts, 107-126) *)

Module FixFirecrawl.





End FixFirecrawl.

(** ** The run controller: [runAnalysis] (server.ts, 147-646) *)

Module Run.

Inductive mode := Quick | Deep.

(** [CONFIG]: read from the environment at start-up. *)
Record CONFIG := {
  MAX_TOOL_CALLS : Z;
  MAX_ITERATIONS : Z;
  TIMEOUT_MS : Z
}.

Definition defaultCONFIG : CONFIG :=
  {| MAX_TOOL_CALLS := 5; MAX_ITERATIONS := 20; TIMEOUT_MS := 120000 |}.

(** The fields of [options] that reach the control flow ([persona] and
    [model] only select the prompt and the model). *)
Record options := {
  allowWebTools : bool;
  previousProgress : Z;
  requireToolApproval : bool
}.

(** The arguments of one call of [runAnalysis]. [storesPassed] says that
    both [pendingApprovals] and [approvedTools] were passed. *)
Record params := {
  config : CONFIG;
  runMode : mode;
  sessionId : option string;
  opts : options;
  storesPassed : bool
}.

Definition maxToolCalls (p : params) : Z :=
  if allowWebTools (opts p) then
    match runMode p with
    | Quick => MAX_TOOL_CALLS (config p)
    | Deep => 999
    end
  else 0.

Definition maxIterations (p : params) : Z :=
  match runMode p with Quick => MAX_ITERATIONS (config p) | Deep => 50 end.

Definition timeout (p : params) : Z :=
  match runMode p with Quick => TIMEOUT_MS (config p) | Deep => 300000 end.

(** types/approval.ts *)
Record PendingApproval := {
  approvalId : string;
  pa_sessionId : string;
  pa_toolName : string;
  pa_toolArgs : json;
  timestamp : Z
}.

(** The values of [approvedTools]. *)
Record decision := {
  approved : bool;
  decidedAt : Z
}.

(** Events of the task stream. [ErrorEvent] carries the message the loop
    derives from [event.error]; [Message] the role and content of
    [event.message]. *)
Record contentPart := { c_type : string; c_text : string }.

Inductive event :=
| ToolUse (toolName : option string) (toolArgs arguments args input : json)
| ErrorEvent (errorMsg : string)
| Message (role : string) (content : list contentPart)
| OtherEvent (type : string).

(** What the async iterator does at each step: deliver an event at
    wall-clock time [t], or throw an error of the given [name]. *)
Inductive stream_item :=
| Yield (t : Z) (e : event)
| Raise (errorName : string).

Inductive exn :=
| PendingApprovalError (approvalId toolName : string) (toolArgs : json)
    (sessionId : string) (checkpointId : option string)
| StreamError (errorName : string).

Inductive checkpointKind := CpApproval | CpApprovalFallback | CpAuto.

(** Console lines. *)
Inductive logEntry :=
| LogTimeout
| LogToolCall (n : Z) (toolName : option string)
| LogSavingCheckpoint (k : checkpointKind)
| LogCheckpointSaved (id : string)
| LogCheckpointFailed
| LogRequestingApproval (approvalId : string)
| LogRejected (toolName : string)
| LogApproved (toolName : string)
| LogLimitReached (limit : Z)
| LogToolError (errorMsg : string)
| LogInterruptedByError
| LogPausedForApproval (approvalId : string).

(** The variables of a run together with the process-wide stores and the
    oracles of the collaborators. [now] is what [Date.now()] returns. *)
Record state := {
  now : Z;
  startTime : Z;
  toolCallCount : Z;
  hasWarned : bool;
  interrupted : bool;
  lastCheckpointId : option string;
  finalOutput : string;
  pendingApprovals : gmap string PendingApproval;
  approvedTools : gmap string decision;
  checkpointOracle : list (Z * option string);
  idOracle : list string;
  console : list logEntry
}.

Definition set_now (t : Z) (s : state) : state :=
  {| now := t; startTime := startTime s; toolCallCount := toolCallCount s;
     hasWarned := hasWarned s; interrupted := interrupted s;
     lastCheckpointId := lastCheckpointId s; finalOutput := finalOutput s;
     pendingApprovals := pendingApprovals s; approvedTools := approvedTools s;
     checkpointOracle := checkpointOracle s; idOracle := idOracle s;
     console := console s |}.

Definition set_toolCallCount (n : Z) (s : state) : state :=
  {| now := now s; startTime := startTime s; toolCallCount := n;
     hasWarned := hasWarned s; interrupted := interrupted s;
     lastCheckpointId := lastCheckpointId s; finalOutput := finalOutput s;
     pendingApprovals := pendingApprovals s; approvedTools := approvedTools s;
     checkpointOracle := checkpointOracle s; idOracle := idOracle s;
     console := console s |}.

Definition set_hasWarned (b : bool) (s : state) : state :=
  {| now := now s; startTime := startTime s; toolCallCount := toolCallCount s;
     hasWarned := b; interrupted := interrupted s;
     lastCheckpointId := lastCheckpointId s; finalOutput := finalOutput s;
     pendingApprovals := pendingApprovals s; approvedTools := approvedTools s;
     checkpointOracle := checkpointOracle s; idOracle := idOracle s;
     console := console s |}.

Definition set_interrupted (b : bool) (s : state) : state :=
  {| now := now s; startTime := startTime s; toolCallCount := toolCallCount s;
     hasWarned := hasWarned s; interrupted := b;
     lastCheckpointId := lastCheckpointId s; finalOutput := finalOutput s;
     pendingApprovals := pendingApprovals s; approvedTools := approvedTools s;
     checkpointOracle := checkpointOracle s; idOracle := idOracle s;
     console := console s |}.

Definition set_lastCheckpointId (c : option string) (s : state) : state :=
  {| now := now s; startTime := startTime s; toolCallCount := toolCallCount s;
     hasWarned := hasWarned s; interrupted := interrupted s;
     lastCheckpointId := c; finalOutput := finalOutput s;
     pendingApprovals := pendingApprovals s; approvedTools := approvedTools s;
     checkpointOracle := checkpointOracle s; idOracle := idOracle s;
     console := console s |}.

Definition set_finalOutput (o : string) (s : state) : state :=
  {| now := now s; startTime := startTime s; toolCallCount := toolCallCount s;
     hasWarned := hasWarned s; interrupted := interrupted s;
     lastCheckpointId := lastCheckpointId s; finalOutput := o;
     pendingApprovals := pendingApprovals s; approvedTools := approvedTools s;
     checkpointOracle := checkpointOracle s; idOracle := idOracle s;
     console := console s |}.

Definition set_pendingApprovals (m : gmap string PendingApproval) (s : state)
  : state :=
  {| now := now s; startTime := startTime s; toolCallCount := toolCallCount s;
     hasWarned := hasWarned s; interrupted := interrupted s;
     lastCheckpointId := lastCheckpointId s; finalOutput := finalOutput s;
     pendingApprovals := m; approvedTools := approvedTools s;
     checkpointOracle := checkpointOracle s; idOracle := idOracle s;
     console := console s |}.

Definition set_approvedTools (m : gmap string decision) (s : state) : state :=
  {| now := now s; startTime := startTime s; toolCallCount := toolCallCount s;
     hasWarned := hasWarned s; interrupted := interrupted s;
     lastCheckpointId := lastCheckpointId s; finalOutput := finalOutput s;
     pendingApprovals := pendingApprovals s; approvedTools := m;
     checkpointOracle := checkpointOracle s; idOracle := idOracle s;
     console := console s |}.

Definition set_checkpointOracle (o : list (Z * option string)) (s : state)
  : state :=
  {| now := now s; startTime := startTime s; toolCallCount := toolCallCount s;
     hasWarned := hasWarned s; interrupted := interrupted s;
     lastCheckpointId := lastCheckpointId s; finalOutput := finalOutput s;
     pendingApprovals := pendingApprovals s; approvedTools := approvedTools s;
     checkpointOracle := o; idOracle := idOracle s;
     console := console s |}.

Definition set_idOracle (o : list string) (s : state) : state :=
  {| now := now s; startTime := startTime s; toolCallCount := toolCallCount s;
     hasWarned := hasWarned s; interrupted := interrupted s;
     lastCheckpointId := lastCheckpointId s; finalOutput := finalOutput s;
     pendingApprovals := pendingApprovals s; approvedTools := approvedTools s;
     checkpointOracle := checkpointOracle s; idOracle := o;
     console := console s |}.

(** [console.log]: a line is appended. *)
Definition log (l : logEntry) (s : state) : state :=
  {| now := now s; startTime := startTime s; toolCallCount := toolCallCount s;
     hasWarned := hasWarned s; interrupted := interrupted s;
     lastCheckpointId := lastCheckpointId s; finalOutput := finalOutput s;
     pendingApprovals := pendingApprovals s; approvedTools := approvedTools s;
     checkpointOracle := checkpointOracle s; idOracle := idOracle s;
     console := console s ++ [l] |}.

(** [Math.round (num / den * 100)], with [Math.round x] the integer
    nearest to [x], halves rounded up: [floor (x + 1/2)]. *)
Definition pct (num den : Z) : Z := (200 * num + den) / (2 * den).

(** [s.includes(sub)] and [s.startsWith(pre)]. *)
Definition includes (s sub : string) : bool :=
  match String.index 0 sub s with Some _ => true | None => false end.

Definition startsWith (s pre : string) : bool := String.prefix pre s.

Definition nonEmpty (s : string) : bool := negb (String.eqb s "").

(** Truthiness of a [string | undefined]. *)
Definition truthyId (c : option string) : bool :=
  match c with Some id => nonEmpty id | None => false end.

(** [a || b] on [string | undefined]. *)
Definition orElse (a b : option string) : option string :=
  if truthyId a then a else b.

(** [await checkpointManager.createCheckpoint(name)]: the next outcome of
    the oracle, after the time it takes; an exhausted oracle fails. *)
Definition createCheckpoint (s : state) : state * option string :=
  match checkpointOracle s with
  | [] => (s, None)
  | (dt, r) :: rest => (set_checkpointOracle rest (set_now (now s + dt) s), r)
  end.

(** [`approval_${Date.now()}_${Math.random()...}`]: the oracle gives the
    part after the prefix. *)
Definition newApprovalId (s : state) : state * string :=
  match idOracle s with
  | [] => (s, "approval_"%string)
  | suffix :: rest => (set_idOracle rest s, "approval_" +:+ suffix)
  end.

Definition approvalKeyOf (sid toolName : string) : string :=
  sid +:+ ":" +:+ toolName.

(** How the body of the [for await] loop ends for one event. *)
Inductive control :=
| Next
| Continue
| Break
| Throw (x : exn).

(** The guard of the approval interception (295-302): the session and the
    tool name when the call is gated. *)
Definition gated (p : params) (toolName : option string)
  : option (string * string) :=
  if requireToolApproval (opts p) then
    match toolName with
    | Some tn =>
        if nonEmpty tn && startsWith tn "firecrawl_" then
          match sessionId p with
          | Some sid =>
              if nonEmpty sid && storesPassed p then Some (sid, tn) else None
          | None => None
          end
        else None
    | None => None
    end
  else None.

(** Lines 383-392. *)
Definition budgetCheck (p : params) (s : state) : state * control :=
  if toolCallCount s >? maxToolCalls p then
    if hasWarned s then (s, Continue)
    else
      (set_interrupted true
         (set_hasWarned true (log (LogLimitReached (maxToolCalls p)) s)),
       Continue)
  else (s, Next).

(** Lines 319-368: the first gated call. *)
Definition requestApproval (sid tn : string) (toolArgs : json) (s : state)
  : state * control :=
  let '(s1, saved) := createCheckpoint (log (LogSavingCheckpoint CpApproval) s) in
  let s2 :=
    match saved with
    | Some id => log (LogCheckpointSaved id) s1
    | None => log LogCheckpointFailed s1
    end in
  let '(s3, aid) := newApprovalId s2 in
  let s4 :=
    set_pendingApprovals
      (<[aid := {| approvalId := aid; pa_sessionId := sid; pa_toolName := tn;
                   pa_toolArgs := toolArgs; timestamp := now s3 |}]>
         (pendingApprovals s3)) s3 in
  (log (LogRequestingApproval aid) s4,
   Throw (PendingApprovalError aid tn toolArgs sid saved)).

(** Lines 261-393. *)
Definition onToolUse (p : params) (toolName : option string)
    (toolArgs arguments args input : json) (s0 : state) : state * control :=
  let s := set_toolCallCount (toolCallCount s0 + 1) s0 in
  let toolArgs :=
    nullish (nullish (nullish (nullish toolArgs arguments) args) input) JNull in
  let s := log (LogToolCall (toolCallCount s) toolName) s in
  match gated p toolName with
  | Some (sid, tn) =>
      match approvedTools s !! approvalKeyOf sid tn with
      | None => requestApproval sid tn toolArgs s
      | Some existingApproval =>
          if negb (approved existingApproval)
          then (log (LogRejected tn) s, Continue)
          else budgetCheck p (log (LogApproved tn) s)
      end
  | None => budgetCheck p s
  end.

Definition noteAfterApproval : json :=
  JObj [("note"%string, JStr "Tool parameters will be fixed after approval")].

Definition noteCorrected : json :=
  JObj [("note"%string, JStr "Tool will be called with corrected parameters")].

(** Lines 396-461. *)
Definition onError (p : params) (errorMsg : string) (s0 : state)
  : state * control :=
  let s := log (LogToolError errorMsg) s0 in
  let isFirecrawlError :=
    includes errorMsg "firecrawl_search" || includes errorMsg "firecrawl_scrape" in
  match sessionId p with
  | Some sid =>
      if requireToolApproval (opts p) && isFirecrawlError && nonEmpty sid
         && storesPassed p
      then
        let tn := if includes errorMsg "firecrawl_search"
                  then "firecrawl_search"%string
                  else "firecrawl_scrape"%string in
        match approvedTools s !! approvalKeyOf sid tn with
        | None =>
            let '(s1, aid) := newApprovalId s in
            let s2 :=
              set_pendingApprovals
                (<[aid := {| approvalId := aid; pa_sessionId := sid;
                             pa_toolName := tn;
                             pa_toolArgs := noteAfterApproval;
                             timestamp := now s1 |}]>
                   (pendingApprovals s1)) s1 in
            (log (LogRequestingApproval aid) s2,
             Throw (PendingApprovalError aid tn noteCorrected sid None))
        | Some _ => (s, Continue)
        end
      else (s, Continue)
  | None => (s, Continue)
  end.

(** Lines 463-469. *)
Definition appendText (out : string) (content : list contentPart) : string :=
  fold_left
    (fun acc c => if String.eqb (c_type c) "text" then acc +:+ c_text c else acc)
    content out.

Definition onMessage (role : string) (content : list contentPart) (s : state)
  : state * control :=
  if String.eqb role "assistant"
  then (set_finalOutput (appendText (finalOutput s) content) s, Next)
  else (s, Next).

(** The body of the loop for one event (250-469). *)
Definition loopBody (p : params) (e : event) (s : state) : state * control :=
  let elapsed := now s - startTime s in
  if elapsed >? timeout p then
    (set_interrupted true (log LogTimeout s), Break)
  else
    match e with
    | ToolUse toolName toolArgs arguments args input =>
        onToolUse p toolName toolArgs arguments args input s
    | ErrorEvent errorMsg => onError p errorMsg s
    | Message role content => onMessage role content s
    | OtherEvent _ => (s, Next)
    end.

(** How the [for await] loop is left. *)
Inductive outcome :=
| Exhausted
| TimedOut
| Thrown (x : exn).

(** The [for await] loop (249-470): nothing is read after a [break], an
    exception of the body or an exception of the stream. *)
Fixpoint consume (p : params) (items : list stream_item) (s : state)
  : state * outcome :=
  match items with
  | [] => (s, Exhausted)
  | Raise errorName :: _ => (s, Thrown (StreamError errorName))
  | Yield t e :: rest =>
      let '(s', c) := loopBody p e (set_now t s) in
      match c with
      | Next | Continue => consume p rest s'
      | Break => (s', TimedOut)
      | Throw x => (s', Thrown x)
      end
  end.

(** The value [runAnalysis] resolves to. Absent optional fields are
    [None]. *)
Record result := {
  report : string;
  checkpointId : option string;
  r_interrupted : bool;
  progress : Z;
  needsApproval : option bool;
  r_approvalId : option string;
  r_toolName : option string;
  r_toolArgs : option json
}.

(** What [runAnalysis] throws: the user-facing "server busy" error built
    for a [TaskConcurrencyError], or the error of [agent.runTask]
    rethrown. *)
Inductive failure :=
| ServerBusy
| Rethrown (errorName : string).

(** Lines 482-589: the [catch] branch of a [PendingApprovalError]. *)
Definition approvalResponse (p : params) (aid tn : string) (toolArgs : json)
    (savedCheckpointId : option string) (s0 : state) : state * result :=
  let s := log (LogPausedForApproval aid) s0 in
  let s1 :=
    if truthyId savedCheckpointId then s
    else
      let '(s', r) := createCheckpoint (log (LogSavingCheckpoint CpApprovalFallback) s) in
      match r with
      | Some id => log (LogCheckpointSaved id) (set_lastCheckpointId (Some id) s')
      | None => log LogCheckpointFailed s'
      end in
  (s1,
   {| report := finalOutput s1;
      checkpointId := orElse savedCheckpointId (lastCheckpointId s1);
      r_interrupted := true;
      progress := pct (now s1 - startTime s1) (timeout p);
      needsApproval := Some true;
      r_approvalId := Some aid;
      r_toolName := Some tn;
      r_toolArgs := Some toolArgs |}).

(** Lines 594-645: auto-save when interrupted, progress, result. *)
Definition finish (p : params) (s : state) : state * result :=
  let s1 :=
    if interrupted s then
      let '(s', r) := createCheckpoint (log (LogSavingCheckpoint CpAuto) s) in
      match r with
      | Some id => log (LogCheckpointSaved id) (set_lastCheckpointId (Some id) s')
      | None => log LogCheckpointFailed s'
      end
    else s in
  let progressPct :=
    if interrupted s1 then
      if maxToolCalls p >? 0 then
        Z.min 95 (pct (toolCallCount s1) (maxToolCalls p))
      else
        Z.min 95 (previousProgress (opts p)
                  + pct (now s1 - startTime s1) (timeout p))
    else 100 in
  (s1,
   {| report := finalOutput s1;
      checkpointId := lastCheckpointId s1;
      r_interrupted := interrupted s1;
      progress := progressPct;
      needsApproval := None;
      r_approvalId := None;
      r_toolName := None;
      r_toolArgs := None |}).

(** Lines 471-592 and what follows: the [catch] of the loop. *)
Definition settle (p : params) (r : state * outcome) : state * (failure + result) :=
  let '(s, o) := r in
  match o with
  | Exhausted | TimedOut =>
      let '(s', res) := finish p s in (s', inr res)
  | Thrown (StreamError errorName) =>
      let s := log LogInterruptedByError s in
      if String.eqb errorName "TaskConcurrencyError" then (s, inl ServerBusy)
      else let '(s', res) := finish p (set_interrupted true s) in (s', inr res)
  | Thrown (PendingApprovalError aid tn toolArgs _ cp) =>
      let s := log LogInterruptedByError s in
      let '(s', res) := approvalResponse p aid tn toolArgs cp s in
      (s', inr res)
  end.

(** The variables of a fresh run (222-246), over the stores and oracles of
    the process. *)
Definition initRun (s : state) : state :=
  {| now := now s; startTime := now s; toolCallCount := 0;
     hasWarned := false; interrupted := false;
     lastCheckpointId := None; finalOutput := "";
     pendingApprovals := pendingApprovals s; approvedTools := approvedTools s;
     checkpointOracle := checkpointOracle s; idOracle := idOracle s;
     console := console s |}.

(** [runAnalysis]. [startError] is the error [agent.runTask] throws
    synchronously, if any. *)
Definition runAnalysis (p : params) (startError : option string)
    (items : list stream_item) (s : state) : state * (failure + result) :=
  let s0 := initRun s in
  match startError with
  | Some errorName =>
      if String.eqb errorName "TaskConcurrencyError" then (s0, inl ServerBusy)
      else (s0, inl (Rethrown errorName))
  | None => settle p (consume p items s0)
  end.

(** The decision endpoint [POST /api/tool-approval] (1611-1647). *)
Inductive approvalReply :=
| MissingApprovalId
| NotFoundOrExpired
| Recorded (approved : bool).

Definition toolApproval (aid : string) (isApproved : bool) (s : state)
  : state * approvalReply :=
  if nonEmpty aid then
    match pendingApprovals s !! aid with
    | None => (s, NotFoundOrExpired)
    | Some pending =>
        let approvalKey :=
          approvalKeyOf (pa_sessionId pending) (pa_toolName pending) in
        let s1 :=
          set_approvedTools
            (<[approvalKey := {| approved := isApproved; decidedAt := now s |}]>
               (approvedTools s)) s in
        (set_pendingApprovals (delete aid (pendingApprovals s1)) s1,
         Recorded isApproved)
    end
  else (s, MissingApprovalId).

(** A process that has just started: empty stores. *)
Definition freshState (t : Z) (cps : list (Z * option string))
    (ids : list string) : state :=
  {| now := t; startTime := t; toolCallCount := 0; hasWarned := false;
     interrupted := false; lastCheckpointId := None; finalOutput := "";
     pendingApprovals := ∅; approvedTools := ∅;
     checkpointOracle := cps; idOracle := ids; console := [] |}.

End Run.
(** ** The single-flight scheduler: [executeTask] (server.ts, 669-698) *)

Module Scheduler.

(** What [executeTask] is called with: the closure of a request handler,
    or the deferred unit [async () => { await task(); resolve(); }] built
    around one at 680-683. *)
Inductive work :=
| Task (id : nat)
| Wrapper (inner : work).

Fixpoint taskOf (w : work) : nat :=
  match w with
  | Task id => id
  | Wrapper inner => taskOf inner
  end.

(** What an observer of the process sees. [Resolved id]: the promise that
    [executeTask] returned to the handler of [id] resolves. *)
Inductive obs :=
| Started (id : nat)
| Finished (id : nat)
| Resolved (id : nat).

(** [isTaskRunning] and [taskQueue], with the calls of [executeTask] that
    are suspended at [await task()] ([awaiting]), those whose task has
    settled and whose [finally] block has not run yet ([unwinding]), and
    the observations so far. *)
Record sched := {
  isTaskRunning : bool;
  taskQueue : list work;
  awaiting : list work;
  unwinding : list work;
  trace : list obs
}.

Definition initial : sched :=
  {| isTaskRunning := false; taskQueue := []; awaiting := [];
     unwinding := []; trace := [] |}.

(** [executeTask(task)] up to its first suspension. *)
Definition executeTask (task : work) (s : sched) : sched :=
  if isTaskRunning s then
    {| isTaskRunning := isTaskRunning s;
       taskQueue := taskQueue s ++ [Wrapper task];
       awaiting := awaiting s; unwinding := unwinding s; trace := trace s |}
  else
    {| isTaskRunning := true;
       taskQueue := taskQueue s;
       awaiting := task :: awaiting s; unwinding := unwinding s;
       trace := trace s ++ [Started (taskOf task)] |}.

(** The promises resolved when the work settles: each wrapper calls its
    [resolve] once its inner work has run. *)
Fixpoint resolutions (w : work) : list obs :=
  match w with
  | Task _ => []
  | Wrapper inner => resolutions inner ++ [Resolved (taskOf inner)]
  end.

(** The [finally] block (690-697) of the call that ran [w], and its
    return: a call made by a handler resolves the handler's promise, the
    promise of a call made from a [finally] block is dropped. *)
Definition finallyBlock (w : work) (s : sched) : sched :=
  let s1 :=
    match taskQueue s with
    | [] =>
        {| isTaskRunning := false; taskQueue := []; awaiting := awaiting s;
           unwinding := unwinding s; trace := trace s |}
    | nextTask :: rest =>
        executeTask nextTask
          {| isTaskRunning := false; taskQueue := rest; awaiting := awaiting s;
             unwinding := unwinding s; trace := trace s |}
    end in
  match w with
  | Task id =>
      {| isTaskRunning := isTaskRunning s1; taskQueue := taskQueue s1;
         awaiting := awaiting s1; unwinding := unwinding s1;
         trace := trace s1 ++ [Resolved id] |}
  | Wrapper _ => s1
  end.

(** The first work of [l] that runs task [id], and the rest of [l]. *)
Fixpoint extract (id : nat) (l : list work) : option (work * list work) :=
  match l with
  | [] => None
  | w :: rest =>
      if Nat.eqb (taskOf w) id then Some (w, rest)
      else match extract id rest with
           | Some (w', rest') => Some (w', w :: rest')
           | None => None
           end
  end.

(** What happens to the process: a handler submits a task, the task of a
    suspended call settles, a call whose task has settled resumes. *)
Inductive input :=
| Submit (id : nat)
| Settles (id : nat)
| Resumes (id : nat).

(** One transition; [None] when the input cannot happen in the state (a
    task that is not running does not settle). *)
Definition step (s : sched) (i : input) : option sched :=
  match i with
  | Submit id => Some (executeTask (Task id) s)
  | Settles id =>
      match extract id (awaiting s) with
      | Some (w, rest) =>
          Some {| isTaskRunning := isTaskRunning s; taskQueue := taskQueue s;
                  awaiting := rest; unwinding := unwinding s ++ [w];
                  trace := trace s ++ Finished id :: resolutions w |}
      | None => None
      end
  | Resumes id =>
      match extract id (unwinding s) with
      | Some (w, rest) =>
          Some (finallyBlock w
                  {| isTaskRunning := isTaskRunning s; taskQueue := taskQueue s;
                     awaiting := awaiting s; unwinding := rest;
                     trace := trace s |})
      | None => None
      end
  end.

Fixpoint steps (s : sched) (ins : list input) : option sched :=
  match ins with
  | [] => Some s
  | i :: rest =>
      match step s i with
      | Some s' => steps s' rest
      | None => None
      end
  end.

(** The tasks in flight after a trace: [None] as soon as a task starts
    while another is in flight, or one finishes that is not in flight. *)
Fixpoint inFlight (cur : option nat) (tr : list obs) : option (option nat) :=
  match tr with
  | [] => Some cur
  | Started id :: rest =>
      match cur with
      | None => inFlight (Some id) rest
      | Some _ => None
      end
  | Finished id :: rest =>
      match cur with
      | Some id' => if Nat.eqb id id' then inFlight None rest else None
      | None => None
      end
  | Resolved _ :: rest => inFlight cur rest
  end.

Definition neverOverlapping (tr : list obs) : Prop :=
  exists cur, inFlight None tr = Some cur.

Fixpoint startedIds (tr : list obs) : list nat :=
  match tr with
  | [] => []
  | Started id :: rest => id :: startedIds rest
  | _ :: rest => startedIds rest
  end.

Fixpoint submittedIds (ins : list input) : list nat :=
  match ins with
  | [] => []
  | Submit id :: rest => id :: submittedIds rest
  | _ :: rest => submittedIds rest
  end.

Fixpoint finishedIds (tr : list obs) : list nat :=
  match tr with
  | [] => []
  | Finished id :: rest => id :: finishedIds rest
  | _ :: rest => finishedIds rest
  end.

(** Every [Resolved id] of the trace comes after a [Finished id]. *)
Fixpoint resolvedAfterFinished (done : list nat) (tr : list obs) : Prop :=
  match tr with
  | [] => True
  | Finished id :: rest => resolvedAfterFinished (id :: done) rest
  | Resolved id :: rest => In id done /\ resolvedAfterFinished done rest
  | Started _ :: rest => resolvedAfterFinished done rest
  end.

(** The invariant of the scheduler, for the tasks [sub] submitted so far. *)
Definition schedInv (sub : list nat) (s : sched) : Prop :=
  inFlight None (trace s) = Some (head (map taskOf (awaiting s)))
  /\ (if isTaskRunning s
      then (length (awaiting s) + length (unwinding s))%nat = 1%nat
      else awaiting s = [] /\ unwinding s = [] /\ taskQueue s = [])
  /\ startedIds (trace s) ++ map taskOf (taskQueue s) = sub
  /\ resolvedAfterFinished [] (trace s)
  /\ Forall (fun w => In (taskOf w) (finishedIds (trace s))) (unwinding s).

End Scheduler.

(** ** Vocabulary of the properties *)

Module Observed.
Import Run.

(** The number of "tool call limit reached" warnings on the console. *)
Fixpoint warnings (l : list logEntry) : nat :=
  match l with
  | [] => 0%nat
  | LogLimitReached _ :: rest => S (warnings rest)
  | _ :: rest => warnings rest
  end.

(** The number of [tool_use] events a stream delivers. *)
Fixpoint toolUses (items : list stream_item) : Z :=
  match items with
  | [] => 0
  | Yield _ (ToolUse _ _ _ _ _) :: rest => 1 + toolUses rest
  | _ :: rest => toolUses rest
  end.

(** The approval gate lets the call through to the budget check: the call
    is not gated, or the recorded decision approves it. *)
Definition reachesBudgetCheck (p : params) (s : state)
    (toolName : option string) : bool :=
  match gated p toolName with
  | None => true
  | Some (sid, tn) =>
      match approvedTools s !! approvalKeyOf sid tn with
      | Some d => approved d
      | None => false
      end
  end.

(** The argument value the loop extracts from a [tool_use] event. *)
Definition extractedArgs (toolArgs arguments args input : json) : json :=
  nullish (nullish (nullish (nullish toolArgs arguments) args) input) JNull.

(** The text of the assistant messages of a stream, in order, appended
    to [out]. *)
Fixpoint transcript (out : string) (items : list stream_item) : string :=
  match items with
  | [] => out
  | Yield _ (Message role content) :: rest =>
      transcript (if String.eqb role "assistant"
                  then appendText out content else out) rest
  | _ :: rest => transcript out rest
  end.

(** A value that [??] skips. *)
Definition isNullish (v : json) : bool :=
  match v with JUndefined | JNull => true | _ => false end.

(** The approval interception can fire at all: approval is required, in
    a session, with both stores passed. *)
Definition approvalPossible (p : params) : bool :=
  requireToolApproval (opts p)
  && match sessionId p with Some sid => nonEmpty sid | None => false end
  && storesPassed p.

(** No two outstanding approvals for one session and tool. *)
Definition atMostOnePending (m : gmap string PendingApproval) : Prop :=
  forall a1 a2 p1 p2,
    m !! a1 = Some p1 -> m !! a2 = Some p2 ->
    pa_sessionId p1 = pa_sessionId p2 -> pa_toolName p1 = pa_toolName p2 ->
    a1 = a2.

(** The warnings printed since the console held [base] of them: one if
    [hasWarned] is set, none otherwise. *)
Definition warnedOnce (base : nat) (s : state) : Prop :=
  warnings (console s) = (base + if hasWarned s then 1 else 0)%nat.

(** A run that has warned is marked interrupted. *)
Definition warnedInterrupts (s : state) : Prop :=
  hasWarned s = true -> interrupted s = true.

End Observed.

(** ** Concrete runs *)

Module Scenarios.
Import Run.

Definition runOptions (web approval : bool) : options :=
  {| allowWebTools := web; previousProgress := 0;
     requireToolApproval := approval |}.

(** Deep mode in session "s1" with web tools disabled. *)
Definition noWebTools : params :=
  {| config := defaultCONFIG; runMode := Deep; sessionId := Some "s1"%string;
     opts := runOptions false false; storesPassed := true |}.

(** Deep mode in session "s1" with tool approval required. *)
Definition deepWithApproval : params :=
  {| config := defaultCONFIG; runMode := Deep; sessionId := Some "s1"%string;
     opts := runOptions true true; storesPassed := true |}.

(** Quick mode with [MAX_TOOL_CALLS=1] in session "s1", approval required. *)
Definition quickOneCall : params :=
  {| config := {| MAX_TOOL_CALLS := 1; MAX_ITERATIONS := 20;
                  TIMEOUT_MS := 120000 |};
     runMode := Quick; sessionId := Some "s1"%string;
     opts := runOptions true true; storesPassed := true |}.

(** Quick mode with the default budget of five calls, no approval. *)
Definition quickDefault : params :=
  {| config := defaultCONFIG; runMode := Quick; sessionId := Some "s1"%string;
     opts := runOptions true false; storesPassed := true |}.

Definition calculatorCall (t : Z) : stream_item :=
  Yield t (ToolUse (Some "calculator"%string)
             JUndefined JUndefined JUndefined JUndefined).

Definition searchArgs : json := JObj [("query"%string, JStr "rivals")].

Definition searchCall (t : Z) : stream_item :=
  Yield t (ToolUse (Some "firecrawl_search"%string)
             JUndefined JUndefined searchArgs JUndefined).

Definition closingText (t : Z) : stream_item :=
  Yield t (Message "assistant" [{| c_type := "text"; c_text := "Summary." |}]).

Definition scrapeError (t : Z) : stream_item :=
  Yield t (ErrorEvent "firecrawl_scrape: invalid parameters").

(** The process after the user rejected [firecrawl_search] in "s1". *)
Definition searchRejected (t : Z) : state :=
  set_approvedTools
    (<["s1:firecrawl_search"%string := {| approved := false; decidedAt := t |}]> ∅)
    (freshState t [] []).

Definition resultOf (r : state * (failure + result)) : option result :=
  match snd r with
  | inr res => Some res
  | inl _ => None
  end.

End Scenarios.

(** ** What the request handlers store as progress *)

Module Handlers.
Import Run.

(** [x || y] on numbers: zero is falsy. *)
Definition orNumber (x y : Z) : Z := if x =? 0 then y else x.

(** [/api/analyze] (server.ts, 928):
    [result.progress || (result.interrupted ? 95 : 100)]. *)
Definition analyzeStoredProgress (res : result) : Z :=
  orNumber (progress res) (if r_interrupted res then 95 else 100).

(** [/api/analyze-file] (1370, 1385) and the re-analysis (1586):
    [result.progress || 100]. *)
Definition fileStoredProgress (res : result) : Z :=
  orNumber (progress res) 100.

End Handlers.

(** ** The approval service (services/toolApprovalService.ts) and its
    helper (utils/toolApprovalHelper.ts) *)

Module ApprovalService.

Inductive approvalStatus := StatusPending | StatusApproved | StatusRejected.

Record PendingApproval := {
  id : string;
  toolName : string;
  toolArgs : json;
  checkpointId : string;
  sessionId : string;
  createdAt : Z;
  status : approvalStatus;
  reason : option string
}.

Definition set_decision (st : approvalStatus) (why : option string)
    (a : PendingApproval) : PendingApproval :=
  {| id := id a; toolName := toolName a; toolArgs := toolArgs a;
     checkpointId := checkpointId a; sessionId := sessionId a;
     createdAt := createdAt a; status := st; reason := why |}.

(** [createApproval]; [suffix] stands for
    [`${Date.now()}-${Math.random()...}`] and [t] for the time. *)
Definition createApproval (suffix : string) (t : Z) (tn : string) (ta : json)
    (cp sid : string) (m : gmap string PendingApproval)
  : gmap string PendingApproval * PendingApproval :=
  let approval :=
    {| id := "approval-" +:+ suffix; toolName := tn; toolArgs := ta;
       checkpointId := cp; sessionId := sid; createdAt := t;
       status := StatusPending; reason := None |} in
  (<[id approval := approval]> m, approval).

Definition getApproval (approvalId : string)
    (m : gmap string PendingApproval) : option PendingApproval :=
  m !! approvalId.

Definition approve (approvalId : string) (why : option string)
    (m : gmap string PendingApproval) : gmap string PendingApproval * bool :=
  match m !! approvalId with
  | None => (m, false)
  | Some _ => (alter (set_decision StatusApproved why) approvalId m, true)
  end.

Definition reject (approvalId : string) (why : option string)
    (m : gmap string PendingApproval) : gmap string PendingApproval * bool :=
  match m !! approvalId with
  | None => (m, false)
  | Some _ => (alter (set_decision StatusRejected why) approvalId m, true)
  end.

Definition isApproved (approvalId : string)
    (m : gmap string PendingApproval) : bool :=
  match m !! approvalId with
  | Some a => match status a with StatusApproved => true | _ => false end
  | None => false
  end.

Definition isRejected (approvalId : string)
    (m : gmap string PendingApproval) : bool :=
  match m !! approvalId with
  | Some a => match status a with StatusRejected => true | _ => false end
  | None => false
  end.

(** [cleanup] at time [t]: approvals created more than one hour before
    are deleted. *)
Definition cleanup (t : Z) (m : gmap string PendingApproval)
  : gmap string PendingApproval :=
  let oneHourAgo := t - 60 * 60 * 1000 in
  filter (fun kv => ~ createdAt kv.2 < oneHourAgo) m.

(** utils/toolApprovalHelper.ts *)
Record ApprovalCheckResult := {
  needsApproval : bool;
  res_approvalId : string;
  res_toolName : string;
  res_toolArgs : json;
  res_checkpointId : string
}.

Definition firecrawlTools : list string :=
  ["firecrawl_scrape"; "firecrawl_crawl"; "firecrawl_map";
   "firecrawl_search"]%string.

Definition checkToolApproval (suffix : string) (t : Z)
    (requireApproval : bool) (tn : string) (ta : json) (cp sid : string)
    (m : gmap string PendingApproval)
  : gmap string PendingApproval * option ApprovalCheckResult :=
  if requireApproval && existsb (String.eqb tn) firecrawlTools then
    let '(m', approval) := createApproval suffix t tn ta cp sid m in
    (m', Some {| needsApproval := true; res_approvalId := id approval;
                 res_toolName := toolName approval;
                 res_toolArgs := toolArgs approval;
                 res_checkpointId := checkpointId approval |})
  else (m, None).

Definition isToolCallApproved (approvalId : string)
    (m : gmap string PendingApproval) : bool := isApproved approvalId m.

Definition isToolCallRejected (approvalId : string)
    (m : gmap string PendingApproval) : bool := isRejected approvalId m.

End ApprovalService.

(** * Properties *)

(** ** Lemmas on property access *)




Section FixFirecrawlFacts.
Import FixFirecrawl.




End FixFirecrawlFacts.

Section RunFacts.
Import Run Observed.

(** ** Shape of the loop *)

Lemma consume_app p pre rest s s1 :
  consume p pre s = (s1, Exhausted) ->
  consume p (pre ++ rest) s = consume p rest s1.
Proof.
  revert s. induction pre as [|[t e|n] pre IH]; simpl; intros s H.
  - by inversion H.
  - destruct (loopBody p e (set_now t s)) as [s' c].
    destruct c; try discriminate; eauto.
  - discriminate.
Qed.

Ltac body_unfold :=
  unfold loopBody, onToolUse, onError, onMessage, requestApproval, budgetCheck,
    createCheckpoint, newApprovalId in *.

Ltac body_cases :=
  body_unfold; repeat case_match; simplify_eq/=.

Lemma warnings_app l l' : warnings (l ++ l') = (warnings l + warnings l')%nat.
Proof.
  induction l as [|e l IH]; simpl; [done|]. destruct e; simpl; by rewrite ?IH.
Qed.

(** What one turn of the loop never undoes, with the two invariants of
    the warning. *)

Lemma loopBody_frame p e s s' c :
  loopBody p e s = (s', c) ->
  startTime s' = startTime s
  /\ approvedTools s' = approvedTools s
  /\ toolCallCount s <= toolCallCount s'
  /\ (interrupted s = true -> interrupted s' = true)
  /\ (hasWarned s = true -> hasWarned s' = true)
  /\ (forall base, warnedOnce base s -> warnedOnce base s')
  /\ (warnedInterrupts s -> warnedInterrupts s').
Proof.
  intros H.
  assert (forall base, warnedOnce base s -> warnedOnce base s') as W.
  { intros base. unfold warnedOnce.
    body_cases; rewrite ?warnings_app; simpl; try lia; intros W;
      repeat match goal with H : hasWarned _ = _ |- _ => rewrite H in * end;
      lia. }
  unfold warnedInterrupts.
  body_cases; repeat split; auto; try lia; congruence.
Qed.

Lemma consume_frame p items s s' o :
  consume p items s = (s', o) ->
  startTime s' = startTime s
  /\ approvedTools s' = approvedTools s
  /\ toolCallCount s <= toolCallCount s'
  /\ (interrupted s = true -> interrupted s' = true)
  /\ (hasWarned s = true -> hasWarned s' = true)
  /\ (forall base, warnedOnce base s -> warnedOnce base s')
  /\ (warnedInterrupts s -> warnedInterrupts s').
Proof.
  revert s. induction items as [|[t e|n] items IH]; simpl; intros s H.
  - simplify_eq. repeat split; auto; lia.
  - destruct (loopBody p e (set_now t s)) as [s1 c] eqn:E.
    apply loopBody_frame in E as (E1 & E2 & E3 & E4 & E5 & E6 & E7).
    simpl in *.
    assert (startTime s' = startTime s1 /\ approvedTools s' = approvedTools s1
            /\ toolCallCount s1 <= toolCallCount s'
            /\ (interrupted s1 = true -> interrupted s' = true)
            /\ (hasWarned s1 = true -> hasWarned s' = true)
            /\ (forall base, warnedOnce base s1 -> warnedOnce base s')
            /\ (warnedInterrupts s1 -> warnedInterrupts s'))
      as (F1 & F2 & F3 & F4 & F5 & F6 & F7).
    { destruct c; simplify_eq; eauto; repeat split; auto; lia. }
    repeat split; try congruence; auto; try lia.
  - simplify_eq. repeat split; auto; lia.
Qed.

Lemma initRun_invariants s :
  warnedOnce (warnings (console s)) (initRun s)
  /\ warnedInterrupts (initRun s)
  /\ toolCallCount (initRun s) = 0
  /\ startTime (initRun s) = now s.
Proof. unfold warnedOnce, warnedInterrupts. simpl. repeat split; [lia|done]. Qed.

(** ** The tool-call counter and the budget check *)

Lemma onToolUse_count p tn a b c d s s' ctl :
  onToolUse p tn a b c d s = (s', ctl) ->
  toolCallCount s' = toolCallCount s + 1.
Proof. intros H. by body_cases. Qed.

Lemma loopBody_count p e s s' ctl :
  loopBody p e s = (s', ctl) ->
  toolCallCount s' =
  toolCallCount s
  + match e, ctl with
    | _, Break => 0
    | ToolUse _ _ _ _ _, _ => 1
    | _, _ => 0
    end.
Proof. intros H. body_cases; lia. Qed.

Lemma consume_count p items s s' :
  consume p items s = (s', Exhausted) ->
  toolCallCount s' = toolCallCount s + toolUses items.
Proof.
  revert s. induction items as [|[t e|n] items IH]; simpl; intros s H.
  - simplify_eq. lia.
  - destruct (loopBody p e (set_now t s)) as [s1 c] eqn:E.
    apply loopBody_count in E. simpl in E.
    destruct c; try discriminate; apply IH in H; destruct e; lia.
  - discriminate.
Qed.

(** A call that the gate lets through arrives at the budget check with
    the counter already incremented and nothing else changed. *)
Lemma onToolUse_reaches p tn a b c d s :
  reachesBudgetCheck p s tn = true ->
  exists s1,
    onToolUse p tn a b c d s = budgetCheck p s1
    /\ toolCallCount s1 = toolCallCount s + 1
    /\ hasWarned s1 = hasWarned s
    /\ interrupted s1 = interrupted s
    /\ finalOutput s1 = finalOutput s
    /\ startTime s1 = startTime s
    /\ pendingApprovals s1 = pendingApprovals s
    /\ checkpointOracle s1 = checkpointOracle s.
Proof.
  unfold reachesBudgetCheck, onToolUse. intros H.
  destruct (gated p tn) as [[sid tn']|]; simpl in *.
  - destruct (approvedTools s !! approvalKeyOf sid tn') as [dcs|]; [|done].
    rewrite H. simpl. eexists. split; [reflexivity|]. by simpl.
  - eexists. split; [reflexivity|]. by simpl.
Qed.




(** ** The end of a run *)

Lemma finish_facts p s s' res :
  finish p s = (s', res) ->
  warnings (console s') = warnings (console s)
  /\ r_interrupted res = interrupted s
  /\ pendingApprovals s' = pendingApprovals s
  /\ report res = finalOutput s
  /\ needsApproval res = None.
Proof.
  unfold finish, createCheckpoint. intros H.
  repeat case_match; simplify_eq/=; rewrite ?warnings_app; simpl;
    repeat split; auto; try lia; congruence.
Qed.

Lemma approvalResponse_facts p aid tn ta cp s s' res :
  approvalResponse p aid tn ta cp s = (s', res) ->
  warnings (console s') = warnings (console s)
  /\ r_interrupted res = true
  /\ pendingApprovals s' = pendingApprovals s
  /\ report res = finalOutput s
  /\ needsApproval res = Some true
  /\ r_approvalId res = Some aid
  /\ r_toolName res = Some tn
  /\ r_toolArgs res = Some ta.
Proof.
  unfold approvalResponse, createCheckpoint. intros H.
  repeat case_match; simplify_eq/=; rewrite ?warnings_app; simpl;
    repeat split; auto; try lia; congruence.
Qed.

Lemma settle_facts p s o s' out :
  settle p (s, o) = (s', out) ->
  warnings (console s') = warnings (console s)
  /\ pendingApprovals s' = pendingApprovals s
  /\ (interrupted s = true -> forall res, out = inr res -> r_interrupted res = true).
Proof.
  unfold settle. intros H.
  destruct o as [| |[aid tn ta sid cp|n]].
  - destruct (finish p s) as [s1 res] eqn:F. simplify_eq.
    apply finish_facts in F as (? & ? & ? & ?).
    repeat split; auto. intros. simplify_eq. congruence.
  - destruct (finish p s) as [s1 res] eqn:F. simplify_eq.
    apply finish_facts in F as (? & ? & ? & ?).
    repeat split; auto. intros. simplify_eq. congruence.
  - destruct (approvalResponse _ _ _ _ _ _) as [s1 res] eqn:F. simplify_eq.
    apply approvalResponse_facts in F as (F1 & ? & ? & ?).
    simpl in F1. rewrite warnings_app in F1. simpl in *.
    repeat split; auto; try lia. intros. by simplify_eq.
  - destruct (String.eqb n "TaskConcurrencyError").
    + simplify_eq. simpl. rewrite warnings_app. simpl.
      repeat split; auto; try lia. intros. discriminate.
    + destruct (finish p _) as [s1 res] eqn:F. simplify_eq.
      apply finish_facts in F as (F1 & ? & ? & ?).
      simpl in *. rewrite warnings_app in F1. simpl in *.
      repeat split; auto; try lia. intros. by simplify_eq.
Qed.

(** ** C1: a budget of zero *)




(** ** C10: the tool-call counter *)

(** C10. Every [tool_use] event the loop handles adds exactly one to the
    counter, in any mode and whatever becomes of the call (it falls
    through, is skipped, or suspends the run): the increment comes before
    the approval gate and the budget check. The budget check compares the
    incremented counter; a call skipped on a recorded rejection and the
    call that suspends the run are counted; a stream that is read to its
    end leaves the counter at the number of its [tool_use] events; and the
    progress of an interrupted run with a positive budget is computed from
    that counter. *)
Theorem C10_counter_counts_every_tool_use p :
  (forall s tn a b c d s' ctl,
      now s - startTime s <= timeout p ->
      loopBody p (ToolUse tn a b c d) s = (s', ctl) ->
      toolCallCount s' = toolCallCount s + 1)
  /\ (forall s tn a b c d,
      now s - startTime s <= timeout p ->
      reachesBudgetCheck p s tn = true ->
      snd (loopBody p (ToolUse tn a b c d) s)
      = if toolCallCount s + 1 >? maxToolCalls p then Continue else Next)
  /\ (forall s sid tn a b c d dcs,
      now s - startTime s <= timeout p ->
      gated p (Some tn) = Some (sid, tn) ->
      approvedTools s !! approvalKeyOf sid tn = Some dcs ->
      approved dcs = false ->
      exists s', loopBody p (ToolUse (Some tn) a b c d) s = (s', Continue)
                 /\ toolCallCount s' = toolCallCount s + 1)
  /\ (forall s sid tn a b c d,
      now s - startTime s <= timeout p ->
      gated p (Some tn) = Some (sid, tn) ->
      approvedTools s !! approvalKeyOf sid tn = None ->
      exists s' x, loopBody p (ToolUse (Some tn) a b c d) s = (s', Throw x)
                   /\ toolCallCount s' = toolCallCount s + 1)
  /\ (forall items s s',
      consume p items (initRun s) = (s', Exhausted) ->
      toolCallCount s' = toolUses items)
  /\ (forall s s' res,
      finish p s = (s', res) ->
      interrupted s = true -> 0 < maxToolCalls p ->
      progress res = Z.min 95 (pct (toolCallCount s) (maxToolCalls p))).
Proof.
  repeat split.
  - intros s tn a b c d s' ctl Ht H. unfold loopBody in H.
    destruct (Z.gtb_spec (now s - startTime s) (timeout p)); [lia|].
    by apply onToolUse_count in H.
  - intros s tn a b c d Ht Hr. unfold loopBody.
    destruct (Z.gtb_spec (now s - startTime s) (timeout p)); [lia|].
    destruct (onToolUse_reaches p tn a b c d s Hr) as (s1 & -> & C1 & _).
    unfold budgetCheck. rewrite C1.
    destruct (toolCallCount s + 1 >? maxToolCalls p); [|done].
    by destruct (hasWarned s1).
  - intros s sid tn a b c d dcs Ht Hg Hd Ha. unfold loopBody, onToolUse.
    destruct (Z.gtb_spec (now s - startTime s) (timeout p)); [lia|].
    rewrite Hg. simpl. rewrite Hd, Ha. simpl. eauto.
  - intros s sid tn a b c d Ht Hg Hd. unfold loopBody, onToolUse.
    destruct (Z.gtb_spec (now s - startTime s) (timeout p)); [lia|].
    rewrite Hg. simpl. rewrite Hd.
    destruct (requestApproval _ _ _ _) as [s' ctl] eqn:E.
    assert (toolCallCount s' = toolCallCount s + 1
            /\ exists x, ctl = Throw x) as [? [x ->]].
    { unfold requestApproval, createCheckpoint, newApprovalId in E.
      repeat case_match; simplify_eq/=; eauto. }
    eauto.
  - intros items s s' H. apply consume_count in H. simpl in H. lia.
  - intros s s' res H Hi Hb. unfold finish, createCheckpoint in H.
    rewrite Hi in H.
    destruct (Z.gtb_spec (maxToolCalls p) 0); [|lia].
    repeat case_match; simplify_eq/=; try congruence; reflexivity.
Qed.

Lemma C10_counter_counts_every_tool_use_witness :
  let s := initRun (Scenarios.searchRejected 1000) in
  exists s',
    loopBody Scenarios.quickOneCall
      (ToolUse (Some "firecrawl_search"%string) JUndefined JUndefined
         Scenarios.searchArgs JUndefined) s = (s', Continue)
    /\ toolCallCount s' = toolCallCount s + 1.
Proof.
  apply (proj1 (proj2 (proj2
           (C10_counter_counts_every_tool_use Scenarios.quickOneCall)))
           (initRun (Scenarios.searchRejected 1000)) "s1"%string
           "firecrawl_search"%string JUndefined JUndefined
           Scenarios.searchArgs JUndefined
           {| approved := false; decidedAt := 1000 |}).
  - vm_compute. discriminate.
  - vm_compute. reflexivity.
  - vm_compute. reflexivity.
  - reflexivity.
Defined.

(** ** C3: calls over a positive budget *)




(** ** C8: a rejected gated call *)

Lemma startsWith_nonEmpty tn pre :
  pre <> ""%string -> startsWith tn pre = true -> nonEmpty tn = true.
Proof. destruct tn, pre; simpl; try done. Qed.

Lemma gated_firecrawl p sid tn :
  requireToolApproval (opts p) = true ->
  startsWith tn "firecrawl_" = true ->
  sessionId p = Some sid -> sid <> ""%string ->
  storesPassed p = true ->
  gated p (Some tn) = Some (sid, tn).
Proof.
  intros Hr Hp Hs Hn Hm. unfold gated.
  rewrite Hr, Hp, Hs, Hm, (startsWith_nonEmpty tn "firecrawl_"); [|done..].
  simpl. unfold nonEmpty.
  destruct (String.eqb_spec sid ""); [done|]. done.
Qed.

(** C8. A call of a gated tool whose recorded decision for the session
    and tool is a rejection is skipped and the loop goes on with the next
    event: the run is not suspended, no pending approval is created, no
    checkpoint is attempted, the flags and the output are as before, and
    what remains of the stream is read from the state the skip leaves. *)
Theorem C8_rejected_call_is_skipped p s sid tn a b c d dcs t rest :
  requireToolApproval (opts p) = true ->
  startsWith tn "firecrawl_" = true ->
  sessionId p = Some sid -> sid <> ""%string ->
  storesPassed p = true ->
  approvedTools s !! approvalKeyOf sid tn = Some dcs ->
  approved dcs = false ->
  t - startTime s <= timeout p ->
  exists s',
    loopBody p (ToolUse (Some tn) a b c d) (set_now t s) = (s', Continue)
    /\ pendingApprovals s' = pendingApprovals s
    /\ approvedTools s' = approvedTools s
    /\ checkpointOracle s' = checkpointOracle s
    /\ idOracle s' = idOracle s
    /\ interrupted s' = interrupted s
    /\ hasWarned s' = hasWarned s
    /\ finalOutput s' = finalOutput s
    /\ console s' = console s ++ [LogToolCall (toolCallCount s + 1) (Some tn);
                                  LogRejected tn]
    /\ consume p (Yield t (ToolUse (Some tn) a b c d) :: rest) s
       = consume p rest s'.
Proof.
  intros Hr Hp Hs Hn Hm Hd Ha Ht.
  pose proof (gated_firecrawl p sid tn Hr Hp Hs Hn Hm) as Hg.
  eexists. simpl. unfold loopBody, onToolUse. simpl.
  destruct (Z.gtb_spec (t - startTime s) (timeout p)); [lia|].
  rewrite Hg. simpl. rewrite Hd, Ha. simpl.
  repeat split. simpl. by rewrite <- app_assoc.
Qed.

Lemma C8_rejected_call_is_skipped_witness :
  let s := initRun (Scenarios.searchRejected 1000) in
  exists s',
    loopBody Scenarios.deepWithApproval
      (ToolUse (Some "firecrawl_search"%string) JUndefined JUndefined
         Scenarios.searchArgs JUndefined) (set_now 1010 s) = (s', Continue)
    /\ pendingApprovals s' = pendingApprovals s
    /\ consume Scenarios.deepWithApproval
         [Scenarios.searchCall 1010; Scenarios.closingText 1020] s
       = consume Scenarios.deepWithApproval [Scenarios.closingText 1020] s'.
Proof.
  intros s.
  destruct (C8_rejected_call_is_skipped Scenarios.deepWithApproval s
              "s1" "firecrawl_search" JUndefined JUndefined
              Scenarios.searchArgs JUndefined
              {| approved := false; decidedAt := 1000 |} 1010
              [Scenarios.closingText 1020])
    as (s' & E & P & _ & _ & _ & _ & _ & _ & _ & K).
  - reflexivity.
  - reflexivity.
  - reflexivity.
  - discriminate.
  - reflexivity.
  - vm_compute. reflexivity.
  - reflexivity.
  - vm_compute. discriminate.
  - exists s'. split; [exact E|]. split; [exact P | exact K].
Defined.

(** ** C5: the first gated call *)

Lemma approvalId_nonEmpty s : snd (newApprovalId s) <> ""%string.
Proof. unfold newApprovalId. by destruct (idOracle s). Qed.

(** C5. Let approval be required, in a session, for a call of a tool
    whose name starts with [firecrawl_], with no decision recorded for the
    session and tool, delivered within the timeout. Then the run attempts
    a checkpoint, allocates a pending approval under a new, non-empty id
    for the session, the tool and the extracted arguments, and ends at
    once, reading nothing more of the stream: its result has
    [needsApproval = true], that approval id, the tool name, the
    arguments, and the output produced so far. When the checkpoint was
    created (with a non-empty id) the result carries its id and no other
    checkpoint is attempted; when its creation failed the failure is
    logged and the result is returned all the same. *)
Theorem C5_first_gated_call_suspends p s sid tn a b c d t rest :
  requireToolApproval (opts p) = true ->
  startsWith tn "firecrawl_" = true ->
  sessionId p = Some sid -> sid <> ""%string ->
  storesPassed p = true ->
  approvedTools s !! approvalKeyOf sid tn = None ->
  t - startTime s <= timeout p ->
  let call := Yield t (ToolUse (Some tn) a b c d) in
  exists s' res aid,
    settle p (consume p (call :: rest) s) = (s', inr res)
    /\ consume p (call :: rest) s = consume p [call] s
    /\ needsApproval res = Some true
    /\ r_approvalId res = Some aid /\ aid <> ""%string
    /\ r_toolName res = Some tn
    /\ r_toolArgs res = Some (extractedArgs a b c d)
    /\ r_interrupted res = true
    /\ report res = finalOutput s
    /\ pendingApprovals s'
       = <[aid := {| approvalId := aid; pa_sessionId := sid; pa_toolName := tn;
                     pa_toolArgs := extractedArgs a b c d;
                     timestamp := match checkpointOracle s with
                                  | (dt, _) :: _ => t + dt
                                  | [] => t
                                  end |}]> (pendingApprovals s)
    /\ In (LogSavingCheckpoint CpApproval) (console s')
    /\ (forall dt id more,
          checkpointOracle s = (dt, Some id) :: more -> id <> ""%string ->
          checkpointId res = Some id /\ checkpointOracle s' = more)
    /\ (forall dt more,
          checkpointOracle s = (dt, None) :: more ->
          In LogCheckpointFailed (console s')).
Proof.
  intros Hr Hp Hs Hn Hm Hd Ht call.
  pose proof (gated_firecrawl p sid tn Hr Hp Hs Hn Hm) as Hg.
  pose proof (approvalId_nonEmpty) as Hid.
  unfold call, settle. simpl. unfold loopBody, onToolUse. simpl.
  destruct (Z.gtb_spec (t - startTime s) (timeout p)); [lia|].
  rewrite Hg. simpl. rewrite Hd.
  unfold requestApproval, approvalResponse, createCheckpoint, newApprovalId,
    extractedArgs, orElse, truthyId, nonEmpty in *.
  simpl.
  destruct (checkpointOracle s) as [|[dt [id|]] more] eqn:O; simpl;
    destruct (idOracle s) as [|suffix ids] eqn:I; simpl; rewrite ?O; simpl.
  all: try (destruct (String.eqb_spec id ""); simpl; rewrite ?O; simpl).
  all: try (destruct more as [|[dt' [id'|]] more']; simpl).
  all: do 3 eexists; (split; [reflexivity|]); simpl.
  all: repeat split; try done.
  all: intros; simplify_eq; simpl; rewrite ?in_app_iff; simpl; tauto.
Qed.

Lemma C5_first_gated_call_suspends_witness :
  let s := initRun (freshState 1000 [(40, Some "cp1"%string)] ["a1"%string]) in
  exists s' res aid,
    settle Scenarios.deepWithApproval
      (consume Scenarios.deepWithApproval
         (Scenarios.searchCall 1010 :: [Scenarios.closingText 1020]) s)
    = (s', inr res)
    /\ needsApproval res = Some true
    /\ r_approvalId res = Some aid /\ aid <> ""%string
    /\ r_toolName res = Some "firecrawl_search"%string
    /\ checkpointId res = Some "cp1"%string.
Proof.
  intros s.
  destruct (C5_first_gated_call_suspends Scenarios.deepWithApproval s
              "s1" "firecrawl_search" JUndefined JUndefined
              Scenarios.searchArgs JUndefined 1010 [Scenarios.closingText 1020])
    as (s' & res & aid & E & _ & N & A & An & T & _ & _ & _ & _ & _ & C & _).
  - reflexivity.
  - reflexivity.
  - reflexivity.
  - discriminate.
  - reflexivity.
  - vm_compute. reflexivity.
  - vm_compute. discriminate.
  - exists s', res, aid. repeat split; try assumption.
    apply (C 40 "cp1"%string []); [reflexivity | discriminate].
Defined.

(** ** C4: pending approvals per session and tool *)

(** C4, as stated, fails: the gate consults only the recorded decisions.
    Two successive runs in session "s1" that each call
    [firecrawl_search], with no decision recorded in between, leave two
    pending approvals for that session and tool. *)
Lemma C4_second_run_adds_second_pending :
  let s0 := freshState 1000 [] ["a1"%string; "a2"%string] in
  let s1 := fst (runAnalysis Scenarios.deepWithApproval None
                   [Scenarios.searchCall 1010] s0) in
  let s2 := fst (runAnalysis Scenarios.deepWithApproval None
                   [Scenarios.searchCall 1030] s1) in
  approvedTools s2 !! "s1:firecrawl_search"%string = None
  /\ pendingApprovals s2 !! "approval_a1"%string
     = Some {| approvalId := "approval_a1"; pa_sessionId := "s1";
               pa_toolName := "firecrawl_search";
               pa_toolArgs := Scenarios.searchArgs; timestamp := 1010 |}
  /\ pendingApprovals s2 !! "approval_a2"%string
     = Some {| approvalId := "approval_a2"; pa_sessionId := "s1";
               pa_toolName := "firecrawl_search";
               pa_toolArgs := Scenarios.searchArgs; timestamp := 1030 |}
  /\ ~ atMostOnePending (pendingApprovals s2).
Proof.
  intros s0 s1 s2.
  assert (pendingApprovals s2 !! "approval_a1"%string
          = Some {| approvalId := "approval_a1"; pa_sessionId := "s1";
                    pa_toolName := "firecrawl_search";
                    pa_toolArgs := Scenarios.searchArgs; timestamp := 1010 |})
    as L1 by (vm_compute; reflexivity).
  assert (pendingApprovals s2 !! "approval_a2"%string
          = Some {| approvalId := "approval_a2"; pa_sessionId := "s1";
                    pa_toolName := "firecrawl_search";
                    pa_toolArgs := Scenarios.searchArgs; timestamp := 1030 |})
    as L2 by (vm_compute; reflexivity).
  split; [vm_compute; reflexivity|]. split; [exact L1|]. split; [exact L2|].
  intros H. specialize (H _ _ _ _ L1 L2 eq_refl eq_refl). discriminate.
Qed.

Lemma loopBody_pending p e s s' ctl :
  loopBody p e s = (s', ctl) ->
  match ctl with
  | Throw (PendingApprovalError aid tn ta sid cp) =>
      approvedTools s !! approvalKeyOf sid tn = None
      /\ exists pa,
          pendingApprovals s' = <[aid := pa]> (pendingApprovals s)
          /\ approvalId pa = aid /\ pa_sessionId pa = sid
          /\ pa_toolName pa = tn
  | Throw (StreamError _) => False
  | _ => pendingApprovals s' = pendingApprovals s
  end.
Proof. intros H. body_cases; eauto 10. Qed.

(** C4, amended. Within one run at most one pending approval is created:
    the loop changes the table of pending approvals only when it suspends
    the run, and then by one entry, under the id of the suspension, for a
    session and tool that have no recorded decision; in particular no
    second call is handled after the first gated one. Across runs there is
    no such bound: when the table already holds an approval for the same
    session and tool under another id, both are outstanding afterwards. *)
Theorem C4_one_pending_approval_per_run p items s s' o :
  consume p items s = (s', o) ->
  match o with
  | Thrown (PendingApprovalError aid tn ta sid cp) =>
      approvedTools s !! approvalKeyOf sid tn = None
      /\ (exists pa,
            pendingApprovals s' = <[aid := pa]> (pendingApprovals s)
            /\ approvalId pa = aid /\ pa_sessionId pa = sid
            /\ pa_toolName pa = tn)
      /\ (pendingApprovals s !! aid = None ->
          size (pendingApprovals s') = S (size (pendingApprovals s)))
      /\ (forall a0 p0,
            pendingApprovals s !! a0 = Some p0 ->
            pa_sessionId p0 = sid -> pa_toolName p0 = tn -> a0 <> aid ->
            ~ atMostOnePending (pendingApprovals s'))
  | _ => pendingApprovals s' = pendingApprovals s
  end.
Proof.
  revert s. induction items as [|[t e|n] items IH]; simpl; intros s H.
  - by simplify_eq.
  - destruct (loopBody p e (set_now t s)) as [s1 c] eqn:E.
    pose proof (loopBody_frame _ _ _ _ _ E) as (_ & A1 & _).
    apply loopBody_pending in E. simpl in *.
    destruct c as [| | |x].
    + apply IH in H. rewrite E, A1 in H. exact H.
    + apply IH in H. rewrite E, A1 in H. exact H.
    + by simplify_eq.
    + simplify_eq. destruct x as [aid tn ta sid cp|]; [|done].
      destruct E as (Hd & pa & Hp & Ha & Hs & Ht).
      split; [exact Hd|]. split; [eauto 10|]. split.
      * intros Hf. rewrite Hp. by apply map_size_insert_None.
      * intros a0 p0 H0 Hs0 Ht0 Hne Hat.
        apply Hne. apply (Hat a0 aid p0 pa).
        -- rewrite Hp. by rewrite lookup_insert_ne.
        -- rewrite Hp. by rewrite lookup_insert_eq.
        -- congruence.
        -- congruence.
  - by simplify_eq.
Qed.

Lemma C4_one_pending_approval_per_run_witness :
  let s := initRun (freshState 1000 [] ["a1"%string]) in
  let r := consume Scenarios.deepWithApproval
             [Scenarios.searchCall 1010; Scenarios.searchCall 1020] s in
  size (pendingApprovals (fst r)) = 1%nat.
Proof.
  intros s r.
  pose proof (C4_one_pending_approval_per_run Scenarios.deepWithApproval
                [Scenarios.searchCall 1010; Scenarios.searchCall 1020] s
                (fst r) (snd r) (surjective_pairing r)) as H.
  assert (snd r = Thrown (PendingApprovalError "approval_a1" "firecrawl_search"
                            Scenarios.searchArgs "s1" None)) as E
    by (vm_compute; reflexivity).
  rewrite E in H. destruct H as (_ & _ & H & _).
  rewrite H; [reflexivity|]. vm_compute. reflexivity.
Defined.

(** ** C9: checkpoints on the suspension path *)

(** C9, as stated, fails: when the suspension signal carries no
    checkpoint id, the [catch] branch saves a fallback checkpoint itself.
    An approval raised from the gated-tool-error path has no checkpoint in
    its signal, and the result returned for it carries the id of the
    fallback checkpoint created after the error. *)
Lemma C9_error_path_result_carries_fallback_checkpoint :
  let s := freshState 1000 [(5, Some "cp1"%string)] ["a1"%string] in
  let run := runAnalysis Scenarios.deepWithApproval None
               [Scenarios.scrapeError 1010] s in
  snd (consume Scenarios.deepWithApproval [Scenarios.scrapeError 1010]
         (initRun s))
  = Thrown (PendingApprovalError "approval_a1" "firecrawl_scrape"
              noteCorrected "s1" None)
  /\ needsApproval <$> Scenarios.resultOf run = Some (Some true)
  /\ checkpointId <$> Scenarios.resultOf run = Some (Some "cp1"%string)
  /\ checkpointOracle (fst run) = []
  /\ console (fst run)
     = [LogToolError "firecrawl_scrape: invalid parameters";
        LogRequestingApproval "approval_a1"; LogInterruptedByError;
        LogPausedForApproval "approval_a1";
        LogSavingCheckpoint CpApprovalFallback; LogCheckpointSaved "cp1"].
Proof. vm_compute. repeat split. Qed.

(** C9, amended. On the approval-suspension path the run returns a result
    with [needsApproval = true] without the auto-save of interrupted runs.
    When the suspension signal carries a non-empty checkpoint id, no
    further checkpoint is attempted and the result carries that id. When
    it carries none, exactly one fallback save is attempted and, if it
    succeeds, its id is the checkpoint id of the result. The signal raised
    from the gated-tool-error path never carries a checkpoint id and is
    raised without any checkpoint attempt. *)
Theorem C9_suspension_checkpoints p :
  (forall s msg s' x,
      onError p msg s = (s', Throw x) ->
      checkpointOracle s' = checkpointOracle s
      /\ exists aid tn sid, x = PendingApprovalError aid tn noteCorrected sid None)
  /\ (forall s aid tn ta sid cp s' out,
      settle p (s, Thrown (PendingApprovalError aid tn ta sid cp)) = (s', out) ->
      exists res,
        out = inr res /\ needsApproval res = Some true
        /\ if truthyId cp then
             checkpointOracle s' = checkpointOracle s
             /\ checkpointId res = cp
             /\ console s'
                = console s ++ [LogInterruptedByError; LogPausedForApproval aid]
           else
             checkpointOracle s' = tail (checkpointOracle s)
             /\ checkpointId res
                = orElse cp match checkpointOracle s with
                            | (_, Some id) :: _ => Some id
                            | _ => lastCheckpointId s
                            end
             /\ console s'
                = console s
                  ++ [LogInterruptedByError; LogPausedForApproval aid;
                      LogSavingCheckpoint CpApprovalFallback;
                      match checkpointOracle s with
                      | (_, Some id) :: _ => LogCheckpointSaved id
                      | _ => LogCheckpointFailed
                      end]).
Proof.
  split.
  - intros s msg s' x H. unfold onError, newApprovalId in H.
    repeat case_match; simplify_eq/=; eauto 10.
  - intros s aid tn ta sid cp s' out H.
    unfold settle, approvalResponse, createCheckpoint in H. simpl in H.
    destruct (truthyId cp) eqn:C.
    + simplify_eq. eexists. split; [reflexivity|]. simpl.
      unfold orElse. rewrite C. repeat split. by rewrite <- app_assoc.
    + destruct (checkpointOracle s) as [|[dt [id|]] more] eqn:O;
        simplify_eq/=; (eexists; split; [reflexivity|]); simpl;
        rewrite ?O; repeat split; rewrite <- ?app_assoc; reflexivity.
Qed.

Lemma C9_suspension_checkpoints_witness :
  let s := initRun (freshState 1000 [(5, Some "cp1"%string)] ["a1"%string]) in
  exists aid tn sid,
    snd (onError Scenarios.deepWithApproval
           "firecrawl_scrape: invalid parameters" s)
    = Throw (PendingApprovalError aid tn noteCorrected sid None).
Proof.
  intros s.
  set (r := onError Scenarios.deepWithApproval
              "firecrawl_scrape: invalid parameters" s).
  destruct (snd r) as [| | |x] eqn:E; try (vm_compute in E; discriminate).
  destruct (proj1 (C9_suspension_checkpoints Scenarios.deepWithApproval)
              s "firecrawl_scrape: invalid parameters" (fst r) x)
    as (_ & aid & tn & sid & ->).
  - rewrite <- E. apply surjective_pairing.
  - by exists aid, tn, sid.
Defined.

(** ** C2: the progress of an interrupted result *)

(** C2: the bound fails on the approval-suspension path. In deep mode
    (timeout 300000 ms) a gated call is delivered 299000 ms after the
    start and the checkpoint of the gate takes 1000 ms: the result is
    flagged interrupted and reports progress 100. *)
Lemma C2_suspended_result_reports_100 :
  let s := freshState 1000 [(1000, Some "cp1"%string)] ["a1"%string] in
  let run := runAnalysis Scenarios.deepWithApproval None
               [Scenarios.searchCall 300000] s in
  timeout Scenarios.deepWithApproval = 300000
  /\ needsApproval <$> Scenarios.resultOf run = Some (Some true)
  /\ r_interrupted <$> Scenarios.resultOf run = Some true
  /\ progress <$> Scenarios.resultOf run = Some 100.
Proof. vm_compute. repeat split. Qed.

End RunFacts.

(** ** C6: the single-flight scheduler *)

Section SchedulerFacts.
Import Scheduler.

Lemma inFlight_app tr tr' cur :
  inFlight cur (tr ++ tr') =
  match inFlight cur tr with
  | Some c => inFlight c tr'
  | None => None
  end.
Proof.
  revert cur. induction tr as [|[id|id|id] tr IH]; intros cur; simpl; auto.
  - destruct cur; auto.
  - destruct cur as [id'|]; auto. destruct (Nat.eqb id id'); auto.
Qed.

Lemma startedIds_app tr tr' :
  startedIds (tr ++ tr') = startedIds tr ++ startedIds tr'.
Proof. induction tr as [|[id|id|id] tr IH]; simpl; by rewrite ?IH. Qed.

Lemma finishedIds_app tr tr' :
  finishedIds (tr ++ tr') = finishedIds tr ++ finishedIds tr'.
Proof. induction tr as [|[id|id|id] tr IH]; simpl; by rewrite ?IH. Qed.

Lemma resolvedAfterFinished_app tr tr' done :
  resolvedAfterFinished done tr ->
  (forall done', (forall x, In x done \/ In x (finishedIds tr) -> In x done') ->
                 resolvedAfterFinished done' tr') ->
  resolvedAfterFinished done (tr ++ tr').
Proof.
  revert done. induction tr as [|[id|id|id] tr IH]; simpl; intros done H K.
  - apply K. intros x [?|[]]; auto.
  - apply IH; auto.
  - apply IH; auto. intros done' Hd. apply K. intros x [Hx|[->|Hx]]; apply Hd;
      simpl; auto.
  - destruct H as [H1 H2]. split; auto.
Qed.

Lemma resolutions_inFlight w cur : inFlight cur (resolutions w) = Some cur.
Proof.
  induction w as [id|w IH]; simpl; [done|]. by rewrite inFlight_app, IH.
Qed.

Lemma resolutions_started w : startedIds (resolutions w) = [].
Proof.
  induction w as [id|w IH]; simpl; [done|]. by rewrite startedIds_app, IH.
Qed.

Lemma resolutions_finished w : finishedIds (resolutions w) = [].
Proof.
  induction w as [id|w IH]; simpl; [done|]. by rewrite finishedIds_app, IH.
Qed.

Lemma resolutions_resolved w done :
  In (taskOf w) done -> resolvedAfterFinished done (resolutions w).
Proof.
  induction w as [id|w IH]; simpl; [done|]. intros H.
  apply resolvedAfterFinished_app; [auto|].
  intros done' Hd. simpl. split; auto.
Qed.

Lemma extract_singleton id l w rest :
  extract id l = Some (w, rest) -> length l = 1%nat ->
  l = [w] /\ rest = [] /\ taskOf w = id.
Proof.
  destruct l as [|w0 [|? ?]]; simpl; try done.
  destruct (Nat.eqb_spec (taskOf w0) id); [|done]. intros. by simplify_eq.
Qed.

Lemma extract_nil id : extract id [] = None.
Proof. done. Qed.

Lemma schedInv_initial : schedInv [] initial.
Proof. unfold schedInv. simpl. repeat split; auto. Qed.

Lemma schedInv_step sub s i s' :
  schedInv sub s -> step s i = Some s' ->
  schedInv (sub ++ submittedIds [i]) s'.
Proof.
  intros (F & R & O & A & U) H. subst sub.
  destruct i as [id|id|id]; simpl in H.
  - (* Submit *)
    simplify_eq. unfold executeTask, schedInv.
    destruct (isTaskRunning s) eqn:Hr; simpl.
    + repeat split; auto.
      by rewrite map_app, app_assoc.
    + destruct R as (Ha & Hu & Hq). rewrite Ha, Hu, Hq in *. simpl in *.
      rewrite inFlight_app, F, startedIds_app. simpl.
      rewrite !app_nil_r.
      repeat split; auto.
      apply resolvedAfterFinished_app; [auto|]. by intros.
  - (* Settles *)
    destruct (extract id (awaiting s)) as [[w rest]|] eqn:E; [|done].
    simplify_eq.
    destruct (isTaskRunning s) eqn:Hr;
      [|destruct R as (Ha & _); rewrite Ha in E; done].
    destruct (unwinding s) as [|u us] eqn:Hu.
    2:{ destruct (awaiting s); [done|]. simpl in R. lia. }
    simpl in R. rewrite Nat.add_0_r in R.
    apply extract_singleton in E as (Ha & -> & Hw); [|done].
    rewrite Ha in *. simpl in *.
    subst id. unfold schedInv. simpl.
    rewrite inFlight_app, F, finishedIds_app, startedIds_app. simpl.
    rewrite Nat.eqb_refl, resolutions_inFlight, resolutions_started.
    rewrite !app_nil_r. repeat split; auto.
    + apply resolvedAfterFinished_app; [auto|]. intros done' Hd. simpl.
      apply resolutions_resolved. by left.
    + constructor; [|done]. rewrite in_app_iff. right. by left.
  - (* Resumes *)
    destruct (extract id (unwinding s)) as [[w rest]|] eqn:E; [|done].
    simplify_eq.
    destruct (isTaskRunning s) eqn:Hr;
      [|destruct R as (_ & Hu & _); rewrite Hu in E; done].
    destruct (awaiting s) as [|a0 as0] eqn:Ha.
    2:{ destruct (unwinding s); [done|]. simpl in R. lia. }
    simpl in R.
    apply extract_singleton in E as (Hu & -> & Hw); [|done].
    rewrite Hu in *. apply Forall_inv in U. simpl in F. subst id.
    unfold finallyBlock, executeTask, schedInv. simpl.
    rewrite app_nil_r.
    destruct (taskQueue s) as [|next q] eqn:Hq; destruct w as [id0|w0]; simpl;
      rewrite ?inFlight_app, ?F, ?startedIds_app, ?finishedIds_app; simpl;
      rewrite ?app_nil_r; simpl in *;
      rewrite <- ?app_assoc; simpl; repeat split; auto.
    + apply resolvedAfterFinished_app; [auto|]. intros done' Hd. simpl.
      split; [|done]. apply Hd. by right.
    + apply resolvedAfterFinished_app; [auto|]. intros done' Hd. simpl.
      split; [|done]. apply Hd. by right.
    + apply resolvedAfterFinished_app; [auto|]. by intros.
Qed.

Lemma submittedIds_cons i ins :
  submittedIds (i :: ins) = submittedIds [i] ++ submittedIds ins.
Proof. by destruct i. Qed.

Lemma schedInv_steps ins sub s s' :
  schedInv sub s -> steps s ins = Some s' ->
  schedInv (sub ++ submittedIds ins) s'.
Proof.
  revert sub s. induction ins as [|i ins IH]; intros sub s HI H.
  - simpl in *. simplify_eq. by rewrite app_nil_r.
  - rewrite submittedIds_cons, app_assoc. simpl in H.
    destruct (step s i) as [s1|] eqn:E; [|done].
    eapply IH; [|exact H]. eapply schedInv_step; eauto.
Qed.

(** C6. In every state the process reaches from its start, whatever the
    order of submissions, settlements and resumptions: the observed trace
    never has a task started while another is in flight; at most one call
    of [executeTask] is at or past [await task()]; the tasks started so
    far, followed by those waiting in the queue, are the submitted tasks
    in submission order; a promise handed to a submission resolves only
    after its task has finished; and the queue is empty whenever no task
    is running. A submission that arrives while a task is running is
    appended to the queue as a deferred wrapper and starts nothing; the
    [finally] block of a finished call takes the head of the queue and
    starts it at once. *)
Theorem C6_single_flight_fifo ins s :
  steps initial ins = Some s ->
  neverOverlapping (trace s)
  /\ (length (awaiting s) + length (unwinding s) <= 1)%nat
  /\ startedIds (trace s) ++ map taskOf (taskQueue s) = submittedIds ins
  /\ resolvedAfterFinished [] (trace s)
  /\ (isTaskRunning s = false ->
      taskQueue s = [] /\ awaiting s = [] /\ unwinding s = [])
  /\ (forall id,
        isTaskRunning s = true ->
        taskQueue (executeTask (Task id) s) = taskQueue s ++ [Wrapper (Task id)]
        /\ awaiting (executeTask (Task id) s) = awaiting s
        /\ trace (executeTask (Task id) s) = trace s)
  /\ (forall w next rest,
        taskQueue s = next :: rest ->
        taskQueue (finallyBlock w s) = rest
        /\ awaiting (finallyBlock w s) = next :: awaiting s
        /\ isTaskRunning (finallyBlock w s) = true
        /\ exists tl, trace (finallyBlock w s)
                      = trace s ++ Started (taskOf next) :: tl).
Proof.
  intros H.
  destruct (schedInv_steps ins [] initial s schedInv_initial H)
    as (F & R & O & A & U).
  split; [by eexists|]. split.
  { destruct (isTaskRunning s); [lia|]. destruct R as (-> & -> & _). simpl. lia. }
  split; [exact O|]. split; [exact A|]. split.
  { intros Hr. rewrite Hr in R. tauto. }
  split.
  - intros id Hr. unfold executeTask. by rewrite Hr.
  - intros w next rest Hq. unfold finallyBlock, executeTask. rewrite Hq. simpl.
    destruct w; simpl; repeat split; eauto.
    eexists. by rewrite <- app_assoc.
Qed.

Lemma C6_single_flight_fifo_witness :
  let ins := [Submit 1; Submit 2; Settles 1; Submit 3; Resumes 1; Settles 2;
              Resumes 2] in
  exists s,
    steps initial ins = Some s
    /\ neverOverlapping (trace s)
    /\ startedIds (trace s) ++ map taskOf (taskQueue s) = [1; 2; 3]%nat.
Proof.
  intros ins.
  destruct (steps initial ins) as [s|] eqn:E; [|vm_compute in E; discriminate].
  exists s. split; [reflexivity|].
  destruct (C6_single_flight_fifo ins s E) as (N & _ & O & _).
  split; [exact N | exact O].
Defined.

End SchedulerFacts.

(** * Further properties of the run controller *)

Section RunExtras.
Import Run Observed.

Ltac loop_unfold :=
  unfold loopBody, onToolUse, onError, onMessage, requestApproval, budgetCheck,
    createCheckpoint, newApprovalId in *.

Ltac loop_cases :=
  loop_unfold; repeat case_match; simplify_eq/=.

(** ** What a turn of the loop leaves alone *)

(** A turn that does not suspend the run touches neither the stores nor
    the oracles nor the checkpoint variable; a turn that does not break
    out on the timeout keeps "interrupted only when over budget". *)
Lemma loopBody_quiet p e s s' ctl :
  loopBody p e s = (s', ctl) ->
  (forall x, ctl <> Throw x) ->
  pendingApprovals s' = pendingApprovals s
  /\ checkpointOracle s' = checkpointOracle s
  /\ idOracle s' = idOracle s
  /\ lastCheckpointId s' = lastCheckpointId s
  /\ now s' = now s.
Proof.
  intros H N. loop_cases; try done; by edestruct N.
Qed.

Lemma loopBody_output p e s s' ctl :
  loopBody p e s = (s', ctl) ->
  finalOutput s' =
  match e, ctl with
  | Message role content, Next =>
      if String.eqb role "assistant"
      then appendText (finalOutput s) content else finalOutput s
  | _, _ => finalOutput s
  end.
Proof. intros H. loop_cases; done. Qed.

Lemma loopBody_interrupted_over p e s s' ctl :
  loopBody p e s = (s', ctl) ->
  ctl <> Break ->
  (interrupted s = true -> maxToolCalls p < toolCallCount s) ->
  interrupted s' = true -> maxToolCalls p < toolCallCount s'.
Proof.
  intros H N K. loop_cases; try done; simpl; intros I;
    try (specialize (K I)); try lia;
    repeat match goal with
    | H : (_ >? _) = true |- _ => rewrite Z.gtb_ltb in H; apply Z.ltb_lt in H
    end; lia.
Qed.

Lemma consume_quiet p items s s' o :
  consume p items s = (s', o) ->
  (forall aid tn ta sid cp,
      o <> Thrown (PendingApprovalError aid tn ta sid cp)) ->
  pendingApprovals s' = pendingApprovals s
  /\ checkpointOracle s' = checkpointOracle s
  /\ idOracle s' = idOracle s
  /\ lastCheckpointId s' = lastCheckpointId s.
Proof.
  revert s. induction items as [|[t e|n] items IH]; simpl; intros s H N.
  - by simplify_eq.
  - destruct (loopBody p e (set_now t s)) as [s1 c] eqn:E.
    destruct c as [| | |x].
    + apply loopBody_quiet in E as (? & ? & ? & ? & _); [|done].
      apply IH in H as (? & ? & ? & ?); [|done]. simpl in *.
      repeat split; congruence.
    + apply loopBody_quiet in E as (? & ? & ? & ? & _); [|done].
      apply IH in H as (? & ? & ? & ?); [|done]. simpl in *.
      repeat split; congruence.
    + apply loopBody_quiet in E as (? & ? & ? & ? & _); [|done].
      simplify_eq. simpl in *. repeat split; congruence.
    + simplify_eq. apply loopBody_pending in E.
      destruct x; [by edestruct N | done].
  - by simplify_eq.
Qed.

Lemma consume_exhausted p items s s' :
  consume p items s = (s', Exhausted) ->
  finalOutput s' = transcript (finalOutput s) items
  /\ ((interrupted s = true -> maxToolCalls p < toolCallCount s) ->
      interrupted s' = true -> maxToolCalls p < toolCallCount s').
Proof.
  revert s. induction items as [|[t e|n] items IH]; simpl; intros s H.
  - by simplify_eq.
  - destruct (loopBody p e (set_now t s)) as [s1 c] eqn:E.
    pose proof (loopBody_output _ _ _ _ _ E) as O.
    pose proof (loopBody_interrupted_over _ _ _ _ _ E) as K.
    assert (c = Next \/ c = Continue) as Hc
      by (destruct c; try discriminate; auto).
    assert (consume p items s1 = (s', Exhausted)) as H'
      by (by destruct Hc as [-> | ->]).
    apply IH in H' as (O' & K'). simpl in *. split.
    + rewrite O', O. destruct e; try done.
      destruct Hc as [-> | ->]; [done|].
      (* a message never ends in [continue] *)
      exfalso. clear -E. loop_cases.
    + intros K0. apply K'. apply K; [by destruct Hc as [-> | ->]|exact K0].
  - discriminate.
Qed.

(** ** Progress of results that are not approval requests *)

Lemma finish_progress p s s' res :
  finish p s = (s', res) ->
  (r_interrupted res = true -> progress res <= 95)
  /\ (progress res = 100 <-> r_interrupted res = false).
Proof.
  unfold finish, createCheckpoint. intros H.
  repeat case_match; simplify_eq/=; (split; [|split]); intros; try done;
    try congruence; lia.
Qed.

(** Every result of [runAnalysis] that is not an approval request obeys
    the 95 percent ceiling: its progress is at most 95 when it is
    interrupted, and it is 100 exactly when it is not interrupted. *)
Theorem runAnalysis_progress_ceiling p startError items s s' res :
  runAnalysis p startError items s = (s', inr res) ->
  needsApproval res = None ->
  (r_interrupted res = true -> progress res <= 95)
  /\ (progress res = 100 <-> r_interrupted res = false).
Proof.
  unfold runAnalysis. intros H Hn.
  destruct startError as [n|].
  { destruct (String.eqb n "TaskConcurrencyError"); discriminate. }
  destruct (consume p items (initRun s)) as [s1 o]. unfold settle in H.
  destruct o as [| |[aid tn ta sid cp|n]].
  - destruct (finish p s1) as [s2 r] eqn:F. simplify_eq.
    by eapply finish_progress.
  - destruct (finish p s1) as [s2 r] eqn:F. simplify_eq.
    by eapply finish_progress.
  - destruct (approvalResponse _ _ _ _ _ _) as [s2 r] eqn:F. simplify_eq.
    apply approvalResponse_facts in F as (_ & _ & _ & _ & F & _). congruence.
  - destruct (String.eqb n "TaskConcurrencyError"); [discriminate|].
    destruct (finish p _) as [s2 r] eqn:F. simplify_eq.
    by eapply finish_progress.
Qed.

Lemma runAnalysis_progress_ceiling_witness :
  exists res,
    snd (runAnalysis Scenarios.quickDefault None
           [Scenarios.calculatorCall 1001; Scenarios.closingText 200000]
           (freshState 1000 [] [])) = inr res
    /\ r_interrupted res = true /\ progress res <= 95.
Proof.
  set (run := runAnalysis _ _ _ _).
  destruct (snd run) as [f|res] eqn:E; [vm_compute in E; discriminate|].
  assert (needsApproval res = None) as Hn.
  { vm_compute in E. by injection E as <-. }
  assert (r_interrupted res = true) as Hi.
  { vm_compute in E. by injection E as <-. }
  exists res. split; [reflexivity|]. split; [exact Hi|].
  refine (proj1 (runAnalysis_progress_ceiling Scenarios.quickDefault None
                   [Scenarios.calculatorCall 1001; Scenarios.closingText 200000]
                   (freshState 1000 [] []) (fst run) res _ Hn) Hi).
  rewrite <- E. apply surjective_pairing.
Defined.

(** ** The timeout *)

(** An event delivered after the timeout is not handled: the loop stops
    there, whatever follows in the stream, with the counter, the output
    and the stores as they were; the run returns an interrupted result
    that is not an approval request, holds the output produced so far and
    carries the id of the auto-save checkpoint when that save succeeds. *)
Theorem timeout_stops_the_run p s pre s1 t e rest :
  consume p pre (initRun s) = (s1, Exhausted) ->
  timeout p < t - now s ->
  consume p (pre ++ Yield t e :: rest) (initRun s)
  = (set_interrupted true (log LogTimeout (set_now t s1)), TimedOut)
  /\ exists s' res,
      runAnalysis p None (pre ++ Yield t e :: rest) s = (s', inr res)
      /\ r_interrupted res = true
      /\ needsApproval res = None
      /\ report res = transcript "" pre
      /\ progress res <= 95
      /\ pendingApprovals s' = pendingApprovals s
      /\ checkpointId res = match checkpointOracle s with
                            | (_, Some id) :: _ => Some id
                            | _ => None
                            end.
Proof.
  intros Hpre Ht.
  pose proof (consume_frame _ _ _ _ _ Hpre) as (T1 & _).
  pose proof (consume_quiet _ _ _ _ _ Hpre) as (P1 & K1 & _ & L1); [done|].
  pose proof (consume_exhausted _ _ _ _ Hpre) as (O1 & _).
  simpl in *.
  assert (consume p (pre ++ Yield t e :: rest) (initRun s)
          = (set_interrupted true (log LogTimeout (set_now t s1)), TimedOut))
    as E.
  { rewrite (consume_app _ _ _ _ _ Hpre). simpl. unfold loopBody. simpl.
    destruct (Z.gtb_spec (t - startTime s1) (timeout p)); [done|lia]. }
  split; [exact E|].
  unfold runAnalysis. rewrite E. unfold settle.
  destruct (finish p _) as [s' res] eqn:F. exists s', res.
  pose proof (finish_facts _ _ _ _ F) as (_ & Hi & Hp & Hr & Hn).
  pose proof (finish_progress _ _ _ _ F) as (Hb & _).
  simpl in *. split; [done|]. split; [done|]. split; [done|].
  split; [congruence|]. split; [auto|]. split; [congruence|].
  unfold finish, createCheckpoint in F. simpl in F. rewrite K1 in F.
  destruct (checkpointOracle s) as [|[dt [id|]] more]; simplify_eq/=; done.
Qed.

Lemma timeout_stops_the_run_witness :
  snd (consume Scenarios.quickDefault
         ([Scenarios.closingText 1010]
          ++ Scenarios.calculatorCall 200000 :: [Scenarios.closingText 200001])
         (initRun (freshState 1000 [] []))) = TimedOut.
Proof.
  set (s := freshState 1000 [] []).
  set (s1 := fst (consume Scenarios.quickDefault [Scenarios.closingText 1010]
                    (initRun s))).
  destruct (timeout_stops_the_run Scenarios.quickDefault s
              [Scenarios.closingText 1010] s1 200000
              (ToolUse (Some "calculator"%string) JUndefined JUndefined
                 JUndefined JUndefined)
              [Scenarios.closingText 200001]) as [E _].
  - vm_compute. reflexivity.
  - vm_compute. reflexivity.
  - unfold Scenarios.calculatorCall. rewrite E. reflexivity.
Defined.

(** ** Errors of the stream *)

(** When the stream throws after a prefix that was handled: a
    [TaskConcurrencyError] makes [runAnalysis] fail with the "server
    busy" error; any other error gives an interrupted result that is not
    an approval request, holds the output produced so far, and carries the
    id of the auto-save checkpoint when that save succeeds. Nothing after
    the error is read. *)
Theorem stream_error_gives_partial_result p s pre s1 n rest :
  consume p pre (initRun s) = (s1, Exhausted) ->
  if String.eqb n "TaskConcurrencyError" then
    snd (runAnalysis p None (pre ++ Raise n :: rest) s) = inl ServerBusy
  else
    exists s' res,
      runAnalysis p None (pre ++ Raise n :: rest) s = (s', inr res)
      /\ r_interrupted res = true
      /\ needsApproval res = None
      /\ report res = transcript "" pre
      /\ progress res <= 95
      /\ pendingApprovals s' = pendingApprovals s
      /\ checkpointId res = match checkpointOracle s with
                            | (_, Some id) :: _ => Some id
                            | _ => None
                            end.
Proof.
  intros Hpre.
  pose proof (consume_quiet _ _ _ _ _ Hpre) as (P1 & K1 & _ & L1); [done|].
  pose proof (consume_exhausted _ _ _ _ Hpre) as (O1 & _).
  unfold runAnalysis. rewrite (consume_app _ _ _ _ _ Hpre).
  unfold consume, settle.
  destruct (String.eqb n "TaskConcurrencyError"); [done|].
  destruct (finish p _) as [s' res] eqn:F. exists s', res.
  pose proof (finish_facts _ _ _ _ F) as (_ & Hi & Hp & Hr & Hn).
  pose proof (finish_progress _ _ _ _ F) as (Hb & _).
  simpl in *. split; [done|]. split; [done|]. split; [done|].
  split; [congruence|]. split; [auto|]. split; [congruence|].
  unfold finish, createCheckpoint in F. simpl in F. rewrite K1 in F.
  destruct (checkpointOracle s) as [|[dt [id|]] more]; simplify_eq/=; done.
Qed.

Lemma stream_error_gives_partial_result_witness :
  exists s' res,
    runAnalysis Scenarios.quickDefault None
      ([Scenarios.closingText 1010] ++ Raise "NetworkError" :: [])
      (freshState 1000 [(7, Some "cp9"%string)] []) = (s', inr res)
    /\ r_interrupted res = true
    /\ checkpointId res = Some "cp9"%string.
Proof.
  set (s := freshState 1000 [(7, Some "cp9"%string)] []).
  set (s1 := fst (consume Scenarios.quickDefault [Scenarios.closingText 1010]
                    (initRun s))).
  destruct (stream_error_gives_partial_result Scenarios.quickDefault s
              [Scenarios.closingText 1010] s1 "NetworkError" [])
    as (s' & res & E & I & _ & _ & _ & _ & C).
  - vm_compute. reflexivity.
  - exists s', res. split; [exact E|]. split; [exact I | exact C].
Defined.

(** An error thrown by [agent.runTask] before any event: a
    [TaskConcurrencyError] becomes the "server busy" failure, any other
    error is rethrown as it is; in both cases the stream is not read, no
    checkpoint is attempted and the stores are left as they were. *)
Lemma start_error_never_reads_the_stream p n items s :
  snd (runAnalysis p (Some n) items s)
  = (if String.eqb n "TaskConcurrencyError"
     then inl ServerBusy else inl (Rethrown n))
  /\ fst (runAnalysis p (Some n) items s) = initRun s
  /\ runAnalysis p (Some n) items s = runAnalysis p (Some n) [] s.
Proof.
  unfold runAnalysis.
  destruct (String.eqb n "TaskConcurrencyError"); repeat split.
Qed.

(** ** Runs that stay within the budget *)

(** A stream that is read to its end with no more tool calls than the
    budget allows gives a complete result: not interrupted, progress 100,
    the text of the assistant messages in order as the report, no
    checkpoint id; no checkpoint is attempted and no approval is
    created. *)
Theorem within_budget_run_completes p items s s1 :
  consume p items (initRun s) = (s1, Exhausted) ->
  toolUses items <= maxToolCalls p ->
  exists s',
    runAnalysis p None items s
    = (s', inr {| report := transcript "" items; checkpointId := None;
                  r_interrupted := false; progress := 100;
                  needsApproval := None; r_approvalId := None;
                  r_toolName := None; r_toolArgs := None |})
    /\ s' = s1
    /\ checkpointOracle s' = checkpointOracle s
    /\ pendingApprovals s' = pendingApprovals s.
Proof.
  intros H Hb.
  pose proof (consume_quiet _ _ _ _ _ H) as (P1 & K1 & _ & L1); [done|].
  pose proof (consume_exhausted _ _ _ _ H) as (O1 & I1).
  pose proof (consume_count _ _ _ _ H) as C1. simpl in *.
  assert (interrupted s1 = false) as Hi.
  { destruct (interrupted s1); [|done].
    assert (maxToolCalls p < toolCallCount s1) by (apply I1; done). lia. }
  exists s1. unfold runAnalysis. rewrite H. unfold settle, finish.
  rewrite Hi, O1, L1. simpl. rewrite Hi. repeat split; done.
Qed.

Lemma within_budget_run_completes_witness :
  exists s',
    runAnalysis Scenarios.quickDefault None
      [Scenarios.calculatorCall 1001; Scenarios.closingText 1002]
      (freshState 1000 [] [])
    = (s', inr {| report := "Summary."; checkpointId := None;
                  r_interrupted := false; progress := 100;
                  needsApproval := None; r_approvalId := None;
                  r_toolName := None; r_toolArgs := None |}).
Proof.
  set (s := freshState 1000 [] []).
  set (items := [Scenarios.calculatorCall 1001; Scenarios.closingText 1002]).
  set (s1 := fst (consume Scenarios.quickDefault items (initRun s))).
  destruct (within_budget_run_completes Scenarios.quickDefault items s s1)
    as (s' & E & _).
  - vm_compute. reflexivity.
  - vm_compute. discriminate.
  - exists s'. exact E.
Defined.

(** ** The approval gate: who is intercepted *)

Lemma gated_Some p tn sid t :
  gated p tn = Some (sid, t) ->
  tn = Some t /\ sessionId p = Some sid /\ approvalPossible p = true
  /\ startsWith t "firecrawl_" = true.
Proof.
  unfold gated, approvalPossible. intros H.
  repeat case_match; simplify_eq.
  repeat match goal with
  | H : _ && _ = true |- _ => apply andb_true_iff in H as [? ?]
  end.
  repeat split; auto.
  repeat (apply andb_true_iff; split); auto.
Qed.

Lemma nullish_null_defined v : nullish v JNull <> JUndefined.
Proof. by destruct v. Qed.

Lemma loopBody_suspension p e s s' aid tn ta sid cp :
  loopBody p e s = (s', Throw (PendingApprovalError aid tn ta sid cp)) ->
  approvalPossible p = true
  /\ sessionId p = Some sid
  /\ aid <> ""%string
  /\ startsWith tn "firecrawl_" = true
  /\ ta <> JUndefined
  /\ pendingApprovals s' !! aid
     = Some {| approvalId := aid; pa_sessionId := sid; pa_toolName := tn;
               pa_toolArgs := match e with
                              | ErrorEvent _ => noteAfterApproval
                              | _ => ta
                              end;
               timestamp := now s' |}.
Proof.
  intros H. unfold loopBody in H.
  destruct (now s - startTime s >? timeout p); [discriminate|].
  destruct e as [tn0 a b c d|msg|role content|ty].
  - unfold onToolUse in H.
    destruct (gated p tn0) as [[sid0 t0]|] eqn:G.
    + apply gated_Some in G as (-> & Hs & Hp & Hw).
      destruct (approvedTools _ !! _).
      * destruct (negb _); [discriminate|].
        unfold budgetCheck in H. repeat case_match; discriminate.
      * unfold requestApproval, createCheckpoint, newApprovalId in H.
        repeat case_match; simplify_eq/=; rewrite lookup_insert_eq;
          repeat split; auto; try done; apply nullish_null_defined.
    + unfold budgetCheck in H. repeat case_match; discriminate.
  - unfold onError, newApprovalId in H.
    destruct (sessionId p) as [sid0|] eqn:Hs; [|discriminate].
    destruct (requireToolApproval (opts p) && _ && nonEmpty sid0 && storesPassed p)
      eqn:G; [|discriminate].
    assert (approvalPossible p = true) as Hp.
    { unfold approvalPossible. rewrite Hs.
      repeat match goal with
      | H : _ && _ = true |- _ => apply andb_true_iff in H as [? ?]
      end.
      repeat (apply andb_true_iff; split); auto. }
    repeat case_match; simplify_eq/=; rewrite lookup_insert_eq;
      repeat split; auto; done.
  - unfold onMessage in H. repeat case_match; discriminate.
  - discriminate.
Qed.

Lemma consume_suspension p items s s' aid tn ta sid cp :
  consume p items s = (s', Thrown (PendingApprovalError aid tn ta sid cp)) ->
  approvalPossible p = true
  /\ sessionId p = Some sid
  /\ aid <> ""%string
  /\ startsWith tn "firecrawl_" = true
  /\ ta <> JUndefined
  /\ exists pa,
      pendingApprovals s' !! aid = Some pa
      /\ approvalId pa = aid /\ pa_sessionId pa = sid /\ pa_toolName pa = tn.
Proof.
  revert s. induction items as [|[t e|n] items IH]; simpl; intros s H.
  - discriminate.
  - destruct (loopBody p e (set_now t s)) as [s1 c] eqn:E.
    destruct c as [| | |x]; eauto; [discriminate|]. simplify_eq.
    apply loopBody_suspension in E as (? & ? & ? & ? & ? & ?).
    repeat split; auto. eexists. split; [eassumption|]. done.
  - discriminate.
Qed.

(** A run in which approval is not required, or that has no session, or
    that was not given the approval stores, is never suspended for
    approval: no result is an approval request and the table of pending
    approvals is left as it was. In any run, a call of a tool whose name
    does not start with [firecrawl_] goes straight to the budget
    check. *)
Theorem gate_off_run_is_never_suspended p :
  (approvalPossible p = false ->
   forall startError items s s' out,
     runAnalysis p startError items s = (s', out) ->
     pendingApprovals s' = pendingApprovals s
     /\ forall res, out = inr res -> needsApproval res = None)
  /\ (forall s tn,
        startsWith tn "firecrawl_" = false ->
        reachesBudgetCheck p s (Some tn) = true).
Proof.
  split.
  - intros Hp startError items s s' out H. unfold runAnalysis in H.
    destruct startError as [n|].
    { destruct (String.eqb n "TaskConcurrencyError"); simplify_eq;
        split; auto; discriminate. }
    destruct (consume p items (initRun s)) as [s1 o] eqn:E.
    destruct o as [| |[aid tn ta sid cp|n]].
    + apply consume_quiet in E as (P & _); [|done]. simpl in P.
      unfold settle in H. destruct (finish p s1) as [s2 r] eqn:F.
      apply finish_facts in F as (_ & _ & ? & _ & ?). simplify_eq.
      split; [congruence|]. intros. by simplify_eq.
    + apply consume_quiet in E as (P & _); [|done]. simpl in P.
      unfold settle in H. destruct (finish p s1) as [s2 r] eqn:F.
      apply finish_facts in F as (_ & _ & ? & _ & ?). simplify_eq.
      split; [congruence|]. intros. by simplify_eq.
    + apply consume_suspension in E as (E & _). congruence.
    + apply consume_quiet in E as (P & _); [|done]. simpl in P.
      unfold settle in H.
      destruct (String.eqb n "TaskConcurrencyError").
      * injection H as <- <-. split; [exact P|]. discriminate.
      * destruct (finish p _) as [s2 r] eqn:F.
        apply finish_facts in F as (_ & _ & F1 & _ & F2). simpl in F1.
        injection H as <- <-.
        split; [by rewrite F1, P|]. intros. by simplify_eq.
  - intros s tn Hw. unfold reachesBudgetCheck.
    destruct (gated p (Some tn)) as [[sid t]|] eqn:G; [|done].
    apply gated_Some in G as (? & _ & _ & ?). simplify_eq. congruence.
Qed.

Lemma gate_off_run_is_never_suspended_witness :
  pendingApprovals
    (fst (runAnalysis Scenarios.quickDefault None [Scenarios.searchCall 1010]
            (freshState 1000 [] [])))
  = pendingApprovals (freshState 1000 [] []).
Proof.
  set (run := runAnalysis _ _ _ _).
  apply (proj1 (gate_off_run_is_never_suspended Scenarios.quickDefault)
           eq_refl None [Scenarios.searchCall 1010] (freshState 1000 [] [])
           (fst run) (snd run)).
  apply surjective_pairing.
Defined.

(** The contract of an approval request: a result of [runAnalysis] with
    [needsApproval = true] is flagged interrupted and names a non-empty
    approval id, a tool of the [firecrawl_] family and its arguments; and
    when it is returned the table of pending approvals holds an entry
    under that id, for that tool and the session of the run. *)
Theorem approval_request_is_well_formed p startError items s s' res :
  runAnalysis p startError items s = (s', inr res) ->
  needsApproval res = Some true ->
  exists aid tn ta pa,
    r_approvalId res = Some aid /\ aid <> ""%string
    /\ r_toolName res = Some tn /\ startsWith tn "firecrawl_" = true
    /\ r_toolArgs res = Some ta /\ ta <> JUndefined
    /\ r_interrupted res = true
    /\ pendingApprovals s' !! aid = Some pa
    /\ approvalId pa = aid /\ pa_toolName pa = tn
    /\ sessionId p = Some (pa_sessionId pa).
Proof.
  unfold runAnalysis. intros H Hn.
  destruct startError as [n|].
  { destruct (String.eqb n "TaskConcurrencyError"); discriminate. }
  destruct (consume p items (initRun s)) as [s1 o] eqn:E. unfold settle in H.
  destruct o as [| |[aid tn ta sid cp|n]].
  - destruct (finish p s1) as [s2 r] eqn:F. simplify_eq.
    apply finish_facts in F as (_ & _ & _ & _ & ?). congruence.
  - destruct (finish p s1) as [s2 r] eqn:F. simplify_eq.
    apply finish_facts in F as (_ & _ & _ & _ & ?). congruence.
  - destruct (approvalResponse _ _ _ _ _ _) as [s2 r] eqn:F. simplify_eq.
    apply approvalResponse_facts in F as (_ & ? & P & _ & _ & ? & ? & ?).
    apply consume_suspension in E
      as (_ & ? & ? & ? & ? & pa & L & ? & ? & ?).
    exists aid, tn, ta, pa. simpl in P. rewrite P.
    repeat split; auto; congruence.
  - destruct (String.eqb n "TaskConcurrencyError"); [discriminate|].
    destruct (finish p _) as [s2 r] eqn:F. simplify_eq.
    apply finish_facts in F as (_ & _ & _ & _ & ?). congruence.
Qed.

Lemma approval_request_is_well_formed_witness :
  exists res aid,
    snd (runAnalysis Scenarios.deepWithApproval None
           [Scenarios.scrapeError 1010] (freshState 1000 [] ["a1"%string]))
    = inr res
    /\ r_approvalId res = Some aid /\ aid <> ""%string.
Proof.
  set (run := runAnalysis _ _ _ _).
  destruct (snd run) as [f|res] eqn:E; [vm_compute in E; discriminate|].
  assert (needsApproval res = Some true) as Hn.
  { vm_compute in E. by injection E as <-. }
  destruct (approval_request_is_well_formed Scenarios.deepWithApproval None
              [Scenarios.scrapeError 1010] (freshState 1000 [] ["a1"%string])
              (fst run) res) as (aid & _ & _ & _ & A & N & _).
  - rewrite <- E. apply surjective_pairing.
  - exact Hn.
  - exists res, aid. split; [reflexivity|]. split; [exact A | exact N].
Defined.

(** A gated call whose recorded decision is an approval goes on to the
    budget check like any other call: it is skipped exactly when the
    incremented counter exceeds the budget, the approval is logged, and
    neither a pending approval nor a checkpoint is created. *)
Theorem approved_call_goes_to_budget_check p s sid tn a b c d dcs :
  requireToolApproval (opts p) = true ->
  startsWith tn "firecrawl_" = true ->
  sessionId p = Some sid -> sid <> ""%string ->
  storesPassed p = true ->
  approvedTools s !! approvalKeyOf sid tn = Some dcs ->
  approved dcs = true ->
  now s - startTime s <= timeout p ->
  exists s',
    loopBody p (ToolUse (Some tn) a b c d) s
    = (s', if toolCallCount s + 1 >? maxToolCalls p then Continue else Next)
    /\ pendingApprovals s' = pendingApprovals s
    /\ checkpointOracle s' = checkpointOracle s
    /\ idOracle s' = idOracle s
    /\ finalOutput s' = finalOutput s
    /\ In (LogApproved tn) (console s')
    /\ (toolCallCount s + 1 <= maxToolCalls p ->
        interrupted s' = interrupted s /\ hasWarned s' = hasWarned s).
Proof.
  intros Hr Hp Hs Hn Hm Hd Ha Ht.
  pose proof (gated_firecrawl p sid tn Hr Hp Hs Hn Hm) as Hg.
  unfold loopBody, onToolUse.
  destruct (Z.gtb_spec (now s - startTime s) (timeout p)); [lia|].
  rewrite Hg. simpl. rewrite Hd, Ha. simpl. unfold budgetCheck. simpl.
  destruct (Z.gtb_spec (toolCallCount s + 1) (maxToolCalls p)).
  - destruct (hasWarned s); eexists; (split; [reflexivity|]); simpl;
      rewrite ?in_app_iff; simpl; repeat split; auto; lia.
  - eexists. split; [reflexivity|]. simpl.
    rewrite ?in_app_iff; simpl; repeat split; auto.
Qed.

Lemma approved_call_goes_to_budget_check_witness :
  let s := initRun (fst (toolApproval "approval_a1" true
                    (fst (runAnalysis Scenarios.deepWithApproval None
                            [Scenarios.searchCall 1010]
                            (freshState 1000 [] ["a1"%string]))))) in
  exists s',
    loopBody Scenarios.deepWithApproval
      (ToolUse (Some "firecrawl_search"%string) JUndefined JUndefined
         Scenarios.searchArgs JUndefined) s = (s', Next).
Proof.
  intros s.
  destruct (approved_call_goes_to_budget_check Scenarios.deepWithApproval s
              "s1" "firecrawl_search" JUndefined JUndefined
              Scenarios.searchArgs JUndefined
              {| approved := true; decidedAt := 1010 |})
    as (s' & E & _).
  - reflexivity.
  - reflexivity.
  - reflexivity.
  - discriminate.
  - reflexivity.
  - vm_compute. reflexivity.
  - reflexivity.
  - vm_compute. discriminate.
  - exists s'. exact E.
Defined.

(** ** The arguments of a tool call *)

(** The argument value handed on from a [tool_use] event is the first of
    [toolArgs], [arguments], [args], [input] that is neither [null] nor
    [undefined], and [null] when there is none; it is never [undefined].
    A candidate that is falsy without being nullish (an empty string,
    zero, [false]) is taken. The pending approval of a suspended call
    stores that value. *)
Theorem tool_arguments_fallback_chain a b c d :
  (isNullish a = false -> extractedArgs a b c d = a)
  /\ (isNullish a = true -> isNullish b = false -> extractedArgs a b c d = b)
  /\ (isNullish a = true -> isNullish b = true -> isNullish c = false ->
      extractedArgs a b c d = c)
  /\ (isNullish a = true -> isNullish b = true -> isNullish c = true ->
      isNullish d = false -> extractedArgs a b c d = d)
  /\ (isNullish a = true -> isNullish b = true -> isNullish c = true ->
      isNullish d = true -> extractedArgs a b c d = JNull)
  /\ extractedArgs a b c d <> JUndefined
  /\ (forall p tn s s' x,
        onToolUse p tn a b c d s = (s', Throw x) ->
        exists aid t sid cp pa,
          x = PendingApprovalError aid t (extractedArgs a b c d) sid cp
          /\ pendingApprovals s' !! aid = Some pa
          /\ pa_toolArgs pa = extractedArgs a b c d).
Proof.
  unfold extractedArgs.
  split; [|split; [|split; [|split; [|split; [|split]]]]].
  - by destruct a.
  - destruct a; try done; by destruct b.
  - destruct a; try done; destruct b; try done; by destruct c.
  - destruct a; try done; destruct b; try done; destruct c; try done;
      by destruct d.
  - destruct a; try done; destruct b; try done; destruct c; try done;
      by destruct d.
  - apply nullish_null_defined.
  - intros p tn s s' x H. unfold onToolUse in H.
    destruct (gated p tn) as [[sid t]|].
    + destruct (approvedTools _ !! _).
      * destruct (negb _); [discriminate|].
        unfold budgetCheck in H. repeat case_match; discriminate.
      * unfold requestApproval, createCheckpoint, newApprovalId in H.
        repeat case_match; simplify_eq/=; do 5 eexists;
          (split; [reflexivity|]); rewrite lookup_insert_eq; done.
    + unfold budgetCheck in H. repeat case_match; discriminate.
Qed.

Lemma tool_arguments_fallback_chain_witness :
  extractedArgs JUndefined JNull (JStr "") Scenarios.searchArgs = JStr "".
Proof.
  apply (proj1 (proj2 (proj2 (tool_arguments_fallback_chain
           JUndefined JNull (JStr "") Scenarios.searchArgs))));
    reflexivity.
Defined.

(** ** Tool errors *)

(** An [error] event never marks the run interrupted and never stops the
    loop by itself: either it is ignored, leaving only its line on the
    console, or it raises an approval request. It is ignored whenever the
    approval interception is off, or the message names neither
    [firecrawl_search] nor [firecrawl_scrape], or a decision (of either
    kind) is recorded for the tool it names; a message that names both
    tools is attributed to [firecrawl_search]. *)
Theorem tool_error_is_ignored_or_asks_approval p msg s :
  let named := includes msg "firecrawl_search" || includes msg "firecrawl_scrape" in
  let tn := if includes msg "firecrawl_search"
            then "firecrawl_search"%string else "firecrawl_scrape"%string in
  (onError p msg s = (log (LogToolError msg) s, Continue)
   \/ exists s' aid sid,
        onError p msg s
        = (s', Throw (PendingApprovalError aid tn noteCorrected sid None))
        /\ sessionId p = Some sid
        /\ approvalPossible p = true /\ named = true
        /\ approvedTools s !! approvalKeyOf sid tn = None
        /\ interrupted s' = interrupted s)
  /\ (approvalPossible p = false ->
      onError p msg s = (log (LogToolError msg) s, Continue))
  /\ (named = false ->
      onError p msg s = (log (LogToolError msg) s, Continue))
  /\ (forall sid dcs,
        sessionId p = Some sid ->
        approvedTools s !! approvalKeyOf sid tn = Some dcs ->
        onError p msg s = (log (LogToolError msg) s, Continue)).
Proof.
  intros named tn. subst named tn.
  unfold onError, approvalPossible, newApprovalId.
  destruct (sessionId p) as [sid|] eqn:Hs;
    destruct (requireToolApproval (opts p));
    destruct (includes msg "firecrawl_search");
    destruct (includes msg "firecrawl_scrape");
    try destruct (nonEmpty sid); destruct (storesPassed p); simpl;
    try destruct (approvedTools s !! approvalKeyOf sid _) as [d0|] eqn:D;
    try destruct (idOracle s).
  all: split;
    [first [ left; reflexivity
           | right; do 3 eexists; split; [reflexivity|]; repeat split; auto ]
    |repeat split; intros; simplify_eq; auto; congruence].
Qed.

Lemma tool_error_is_ignored_or_asks_approval_witness :
  onError Scenarios.quickDefault "firecrawl_scrape: invalid parameters"
    (freshState 1000 [] [])
  = (log (LogToolError "firecrawl_scrape: invalid parameters")
       (freshState 1000 [] []), Continue).
Proof.
  apply (proj1 (proj2 (tool_error_is_ignored_or_asks_approval
           Scenarios.quickDefault "firecrawl_scrape: invalid parameters"
           (freshState 1000 [] [])))).
  reflexivity.
Defined.

(** ** The decision endpoint *)

(** A decision for an approval id that is empty or not pending changes
    nothing: the reply is "missing id" for the empty id and "not found or
    expired" otherwise. *)
Theorem toolApproval_unknown_id_changes_nothing aid ok s :
  (aid = ""%string -> toolApproval aid ok s = (s, MissingApprovalId))
  /\ (aid <> ""%string -> pendingApprovals s !! aid = None ->
      toolApproval aid ok s = (s, NotFoundOrExpired)).
Proof.
  unfold toolApproval, nonEmpty. split.
  - by intros ->.
  - intros Hn Hl. destruct (String.eqb_spec aid ""); [done|]. simpl.
    by rewrite Hl.
Qed.

Lemma toolApproval_unknown_id_changes_nothing_witness :
  toolApproval "approval_zz" true (freshState 1000 [] [])
  = (freshState 1000 [] [], NotFoundOrExpired).
Proof.
  apply (proj2 (toolApproval_unknown_id_changes_nothing "approval_zz" true
                  (freshState 1000 [] []))); [discriminate|].
  vm_compute. reflexivity.
Defined.

(** A decision for a pending approval is recorded under the key of the
    session and tool of that approval, with the time of the decision, and
    replaces any earlier decision for that key; the approval is no longer
    pending, every other pending approval and every decision under
    another key is as before; and the same approval id cannot be decided a
    second time. *)
Theorem toolApproval_records_and_consumes aid ok s pa :
  aid <> ""%string ->
  pendingApprovals s !! aid = Some pa ->
  exists s',
    toolApproval aid ok s = (s', Recorded ok)
    /\ approvedTools s' !! approvalKeyOf (pa_sessionId pa) (pa_toolName pa)
       = Some {| approved := ok; decidedAt := now s |}
    /\ (forall k, k <> approvalKeyOf (pa_sessionId pa) (pa_toolName pa) ->
                  approvedTools s' !! k = approvedTools s !! k)
    /\ pendingApprovals s' !! aid = None
    /\ (forall other, other <> aid ->
                      pendingApprovals s' !! other = pendingApprovals s !! other)
    /\ (forall ok', toolApproval aid ok' s' = (s', NotFoundOrExpired)).
Proof.
  intros Hn Hl. unfold toolApproval, nonEmpty.
  destruct (String.eqb_spec aid ""); [done|]. simpl. rewrite Hl.
  eexists. split; [reflexivity|]. simpl.
  rewrite lookup_insert_eq, lookup_delete_eq.
  split; [done|]. split; [|split; [done|split]].
  - intros k Hk. by rewrite lookup_insert_ne.
  - intros other Ho. by rewrite lookup_delete_ne.
  - intros ok'. unfold toolApproval, nonEmpty.
    destruct (String.eqb_spec aid ""); [done|]. simpl.
    rewrite ?lookup_delete_eq. reflexivity.
Qed.

Lemma toolApproval_records_and_consumes_witness :
  let s := fst (runAnalysis Scenarios.deepWithApproval None
                  [Scenarios.searchCall 1010]
                  (freshState 1000 [] ["a1"%string])) in
  exists s',
    toolApproval "approval_a1" false s = (s', Recorded false)
    /\ pendingApprovals s' !! "approval_a1"%string = None.
Proof.
  intros s.
  destruct (toolApproval_records_and_consumes "approval_a1" false s
              {| approvalId := "approval_a1"; pa_sessionId := "s1";
                 pa_toolName := "firecrawl_search";
                 pa_toolArgs := Scenarios.searchArgs; timestamp := 1010 |})
    as (s' & E & _ & _ & L & _).
  - discriminate.
  - vm_compute. reflexivity.
  - exists s'. split; [exact E | exact L].
Defined.

(** ** The limit warning and the report *)

(** In any run the limit warning is printed at most once, and a run that
    printed it returns only interrupted results. *)
Theorem limit_warning_at_most_once p startError items s s' out :
  runAnalysis p startError items s = (s', out) ->
  (warnings (console s') = warnings (console s)
   \/ warnings (console s') = S (warnings (console s)))
  /\ (warnings (console s') = S (warnings (console s)) ->
      forall res, out = inr res -> r_interrupted res = true).
Proof.
  unfold runAnalysis. intros H.
  destruct startError as [n|].
  { destruct (String.eqb n "TaskConcurrencyError"); simplify_eq; simpl;
      (split; [by left | intros; discriminate]). }
  destruct (consume p items (initRun s)) as [s1 o] eqn:E.
  destruct (initRun_invariants s) as (W0 & J0 & _).
  apply consume_frame in E as (_ & _ & _ & _ & _ & W & J).
  specialize (W _ W0). specialize (J J0).
  apply settle_facts in H as (Hw & _ & R).
  unfold warnedOnce in W. unfold warnedInterrupts in J. rewrite Hw, W.
  destruct (hasWarned s1).
  - split; [right; lia|]. intros _. apply R. by apply J.
  - split; [left; lia|]. intros; lia.
Qed.

Lemma limit_warning_at_most_once_witness :
  let run := runAnalysis Scenarios.noWebTools None
               [Scenarios.calculatorCall 1001; Scenarios.calculatorCall 1002;
                Scenarios.calculatorCall 1003] (freshState 1000 [] []) in
  warnings (console (fst run)) = 0%nat \/ warnings (console (fst run)) = 1%nat.
Proof.
  intros run.
  apply (proj1 (limit_warning_at_most_once Scenarios.noWebTools None
                  [Scenarios.calculatorCall 1001; Scenarios.calculatorCall 1002;
                   Scenarios.calculatorCall 1003] (freshState 1000 [] [])
                  (fst run) (snd run) (surjective_pairing run))).
Defined.

Lemma consume_output_prefix p items s s' o :
  consume p items s = (s', o) ->
  exists pre post,
    items = pre ++ post
    /\ finalOutput s' = transcript (finalOutput s) pre
    /\ (o = Exhausted -> post = []).
Proof.
  revert s. induction items as [|[t e|n] items IH]; simpl; intros s H.
  - simplify_eq. by exists [], [].
  - destruct (loopBody p e (set_now t s)) as [s1 c] eqn:E.
    pose proof (loopBody_output _ _ _ _ _ E) as O. simpl in O.
    assert (c = Continue -> forall role content, e <> Message role content)
      as Hm.
    { intros -> role content ->. clear -E. loop_cases. }
    destruct c as [| | |x].
    + apply IH in H as (pre & post & -> & Hp & He).
      exists (Yield t e :: pre), post. split; [done|]. split; [|done].
      rewrite Hp, O. by destruct e.
    + apply IH in H as (pre & post & -> & Hp & He).
      exists (Yield t e :: pre), post. split; [done|]. split; [|done].
      rewrite Hp, O. destruct e; try done. by edestruct Hm.
    + simplify_eq. exists [], (Yield t e :: items).
      split; [done|]. split; [|done]. rewrite O. by destruct e.
    + simplify_eq. exists [], (Yield t e :: items).
      split; [done|]. split; [|done]. rewrite O. by destruct e.
  - simplify_eq. exists [], (Raise n :: items). by repeat split.
Qed.

Lemma consume_timedOut p items s s' :
  consume p items s = (s', TimedOut) -> interrupted s' = true.
Proof.
  revert s. induction items as [|[t e|n] items IH]; simpl; intros s H.
  - discriminate.
  - destruct (loopBody p e (set_now t s)) as [s1 c] eqn:E.
    destruct c as [| | |x]; eauto; [|discriminate]. simplify_eq.
    clear -E. by loop_cases.
  - discriminate.
Qed.

(** The report of every result is the text of the assistant messages of
    the events handled before the run stopped, in order: of an initial
    part of the stream. Tool calls, errors and messages of other roles
    add nothing to it, nothing is taken from events after the stop, and
    a result that is not interrupted has the text of the whole stream. *)
Theorem report_is_text_of_handled_prefix p items s s' res :
  runAnalysis p None items s = (s', inr res) ->
  exists pre post,
    items = pre ++ post /\ report res = transcript "" pre
    /\ (r_interrupted res = false -> post = []).
Proof.
  unfold runAnalysis. intros H.
  destruct (consume p items (initRun s)) as [s1 o] eqn:E.
  destruct (consume_output_prefix _ _ _ _ _ E) as (pre & post & Hi & Hp & He).
  simpl in Hp. exists pre, post. split; [done|].
  unfold settle in H. destruct o as [| |[aid tn ta sid cp|n]].
  - destruct (finish p s1) as [s2 r] eqn:F. simplify_eq.
    apply finish_facts in F as (_ & _ & _ & Hr & _).
    split; [congruence|]. auto.
  - destruct (finish p s1) as [s2 r] eqn:F. injection H as <- <-.
    apply finish_facts in F as (_ & Hf & _ & Hr & _).
    apply consume_timedOut in E.
    split; [congruence|]. intros. congruence.
  - destruct (approvalResponse _ _ _ _ _ _) as [s2 r] eqn:F.
    injection H as <- <-.
    apply approvalResponse_facts in F as (_ & Hf & _ & Hr & _).
    simpl in Hr. split; [congruence|]. intros. congruence.
  - destruct (String.eqb n "TaskConcurrencyError"); [discriminate|].
    destruct (finish p _) as [s2 r] eqn:F. injection H as <- <-.
    apply finish_facts in F as (_ & Hf & _ & Hr & _).
    simpl in *. split; [congruence|]. intros. congruence.
Qed.

Lemma report_is_text_of_handled_prefix_witness :
  exists res pre post,
    snd (runAnalysis Scenarios.quickDefault None
           [Scenarios.closingText 1001; Scenarios.closingText 200000]
           (freshState 1000 [] [])) = inr res
    /\ [Scenarios.closingText 1001; Scenarios.closingText 200000] = pre ++ post
    /\ report res = transcript "" pre.
Proof.
  set (run := runAnalysis _ _ _ _).
  destruct (snd run) as [f|res] eqn:E; [vm_compute in E; discriminate|].
  destruct (report_is_text_of_handled_prefix Scenarios.quickDefault
              [Scenarios.closingText 1001; Scenarios.closingText 200000]
              (freshState 1000 [] []) (fst run) res)
    as (pre & post & Hi & Hr & _).
  - rewrite <- E. apply surjective_pairing.
  - exists res, pre, post. split; [reflexivity|]. split; [exact Hi | exact Hr].
Defined.

(** ** Suspension, decision, retry *)

(** The approval round trip. A first gated call suspends the run under
    an approval id; a decision submitted for that id is accepted, removes
    the pending approval and is recorded for the session and tool; and in
    the next run of the session a call of the same tool is no longer
    suspended and creates no pending approval: after an approval it goes
    to the budget check as the first call of the run, after a rejection it
    is skipped. *)
Theorem decision_governs_the_retry p s sid tn a b c d t rest ok :
  requireToolApproval (opts p) = true ->
  startsWith tn "firecrawl_" = true ->
  sessionId p = Some sid -> sid <> ""%string ->
  storesPassed p = true ->
  approvedTools s !! approvalKeyOf sid tn = None ->
  t - startTime s <= timeout p ->
  exists s1 aid cp s2,
    consume p (Yield t (ToolUse (Some tn) a b c d) :: rest) s
    = (s1, Thrown (PendingApprovalError aid tn (extractedArgs a b c d) sid cp))
    /\ toolApproval aid ok s1 = (s2, Recorded ok)
    /\ pendingApprovals s2 !! aid = None
    /\ approvedTools s2 !! approvalKeyOf sid tn
       = Some {| approved := ok; decidedAt := now s1 |}
    /\ forall a' b' c' d' t',
         t' - now s2 <= timeout p ->
         exists s3,
           loopBody p (ToolUse (Some tn) a' b' c' d') (set_now t' (initRun s2))
           = (s3, if ok
                  then if 1 >? maxToolCalls p then Continue else Next
                  else Continue)
           /\ pendingApprovals s3 = pendingApprovals s2.
Proof.
  intros Hr Hp Hs Hn Hm Hd Ht.
  pose proof (gated_firecrawl p sid tn Hr Hp Hs Hn Hm) as Hg.
  simpl. unfold loopBody at 1, onToolUse at 1. simpl.
  destruct (Z.gtb_spec (t - startTime s) (timeout p)); [lia|].
  rewrite Hg. simpl. rewrite Hd.
  unfold requestApproval, createCheckpoint, newApprovalId, extractedArgs.
  simpl.
  destruct (checkpointOracle s) as [|[dt [cp0|]] more]; simpl;
    destruct (idOracle s) as [|suffix ids]; simpl.
  all: do 4 eexists; (split; [reflexivity|]).
  all: unfold toolApproval; simpl; rewrite lookup_insert_eq; simpl.
  all: split; [reflexivity|]; simpl.
  all: rewrite lookup_delete_eq, lookup_insert_eq.
  all: split; [reflexivity|]; split; [reflexivity|].
  all: intros a' b' c' d' t' Ht'; unfold loopBody, onToolUse; simpl.
  all: match goal with
       | |- context [?x - ?y >? timeout ?q] =>
           destruct (Z.gtb_spec (x - y) (timeout q)); [simpl in *; lia|]
       end.
  all: rewrite Hg; simpl; rewrite lookup_insert_eq; simpl.
  all: destruct ok; simpl; [|eexists; split; reflexivity].
  all: unfold budgetCheck; simpl.
  all: change (0 + 1) with 1.
  all: destruct (1 >? maxToolCalls _); eexists; split; reflexivity.
Qed.

Lemma decision_governs_the_retry_witness :
  exists s1 aid cp s2,
    consume Scenarios.deepWithApproval
      (Scenarios.searchCall 1010 :: [Scenarios.closingText 1020])
      (initRun (freshState 1000 [] ["a1"%string]))
    = (s1, Thrown (PendingApprovalError aid "firecrawl_search"
                     (extractedArgs JUndefined JUndefined Scenarios.searchArgs
                        JUndefined) "s1" cp))
    /\ toolApproval aid false s1 = (s2, Recorded false)
    /\ pendingApprovals s2 !! aid = None.
Proof.
  destruct (decision_governs_the_retry Scenarios.deepWithApproval
              (initRun (freshState 1000 [] ["a1"%string]))
              "s1" "firecrawl_search" JUndefined JUndefined
              Scenarios.searchArgs JUndefined 1010
              [Scenarios.closingText 1020] false)
    as (s1 & aid & cp & s2 & E & D & L & _).
  - reflexivity.
  - reflexivity.
  - reflexivity.
  - discriminate.
  - reflexivity.
  - vm_compute. reflexivity.
  - vm_compute. discriminate.
  - exists s1, aid, cp, s2. split; [exact E|]. split; [exact D | exact L].
Defined.

End RunExtras.

(** * What the handlers store *)

Section HandlerFacts.
Import Run Handlers.

Lemma pct_nonneg num den : 0 <= num -> 0 < den -> 0 <= pct num den.
Proof. intros. unfold pct. apply Z.div_pos; lia. Qed.

(** The progress stored with a report that is not an approval request,
    for a run with a positive budget. [/api/analyze] stores a value
    between 1 and 95 for an interrupted run (95 when the run reports 0)
    and 100 for a complete one. [/api/analyze-file] and the re-analysis
    store the reported progress, except that an interrupted run reporting
    0 is stored with progress 100. *)
Theorem stored_progress_of_finished_runs p s s' res :
  finish p s = (s', res) ->
  0 <= toolCallCount s -> 0 < maxToolCalls p ->
  (r_interrupted res = true ->
     1 <= analyzeStoredProgress res <= 95
     /\ (progress res = 0 ->
         analyzeStoredProgress res = 95 /\ fileStoredProgress res = 100)
     /\ (progress res <> 0 ->
         analyzeStoredProgress res = progress res
         /\ fileStoredProgress res = progress res))
  /\ (r_interrupted res = false ->
      analyzeStoredProgress res = 100 /\ fileStoredProgress res = 100).
Proof.
  intros H Hc Hb.
  assert (r_interrupted res = interrupted s
          /\ progress res
             = if interrupted s
               then Z.min 95 (pct (toolCallCount s) (maxToolCalls p))
               else 100) as [Hi Hp].
  { unfold finish, createCheckpoint in H.
    destruct (Z.gtb_spec (maxToolCalls p) 0); [|lia].
    repeat case_match; simplify_eq/=; split; congruence. }
  pose proof (pct_nonneg (toolCallCount s) (maxToolCalls p) Hc Hb) as Hn.
  unfold analyzeStoredProgress, fileStoredProgress, orNumber.
  rewrite Hi, Hp. destruct (interrupted s).
  - split; [|intros; discriminate]. intros _.
    destruct (Z.eqb_spec (95 `min` pct (toolCallCount s) (maxToolCalls p)) 0);
      repeat split; intros; lia.
  - split; [intros; discriminate|]. intros _. done.
Qed.

Lemma stored_progress_of_finished_runs_witness :
  exists res,
    Scenarios.resultOf
      (runAnalysis Scenarios.quickDefault None [Scenarios.closingText 200000]
         (freshState 1000 [] [])) = Some res
    /\ r_interrupted res = true
    /\ fileStoredProgress res = 100 /\ analyzeStoredProgress res = 95.
Proof.
  set (s1 := fst (consume Scenarios.quickDefault [Scenarios.closingText 200000]
                    (initRun (freshState 1000 [] [])))).
  set (r := finish Scenarios.quickDefault s1).
  exists (snd r).
  destruct (stored_progress_of_finished_runs Scenarios.quickDefault s1
              (fst r) (snd r)) as [H _].
  - apply surjective_pairing.
  - vm_compute. discriminate.
  - reflexivity.
  - destruct H as (_ & H0 & _); [reflexivity|].
    destruct H0 as [Ha Hf]; [reflexivity|].
    split; [reflexivity|]. split; [reflexivity|]. split; [exact Hf | exact Ha].
Defined.

End HandlerFacts.

(** * The approval service *)

Section ServiceFacts.
Import ApprovalService.

(** Decisions of the approval service. On an unknown id [approve] and
    [reject] return [false] and change nothing. On a known id they return
    [true] and set the status and the reason of that approval alone; the
    approval stays in the table whatever is decided, and the last decision
    wins: after [approve] the approval is approved and not rejected, and a
    later [reject] makes it rejected and not approved. *)
Theorem service_decisions aid (m : gmap string PendingApproval) :
  (m !! aid = None ->
   forall why,
     approve aid why m = (m, false) /\ reject aid why m = (m, false)
     /\ isApproved aid m = false /\ isRejected aid m = false)
  /\ (forall a, m !! aid = Some a ->
      forall why why',
        let m1 := fst (approve aid why m) in
        let m2 := fst (reject aid why' m1) in
        snd (approve aid why m) = true
        /\ m1 !! aid = Some (set_decision StatusApproved why a)
        /\ isApproved aid m1 = true /\ isRejected aid m1 = false
        /\ (forall other, other <> aid -> m1 !! other = m !! other)
        /\ snd (reject aid why' m1) = true
        /\ m2 !! aid = Some (set_decision StatusRejected why' a)
        /\ isApproved aid m2 = false /\ isRejected aid m2 = true).
Proof.
  split.
  - intros H why. unfold approve, reject, isApproved, isRejected.
    by rewrite H.
  - intros a H why why' m1 m2. subst m1 m2.
    unfold approve, reject, isApproved, isRejected. rewrite H. simpl.
    rewrite !lookup_alter_eq, H. simpl. rewrite lookup_alter_eq.
    rewrite lookup_alter_eq, H. simpl. repeat split.
    intros other Ho. by rewrite lookup_alter_ne.
Qed.

Lemma service_decisions_witness :
  let m := fst (createApproval "x1" 1000 "firecrawl_map" JNull "cp1" "s1" ∅) in
  isApproved "approval-x1" (fst (approve "approval-x1" None m)) = true.
Proof.
  intros m.
  refine (proj1 (proj2 (proj2 (proj2 (service_decisions "approval-x1" m)
            (snd (createApproval "x1" 1000 "firecrawl_map" JNull "cp1" "s1" ∅))
            _ None None)))).
  vm_compute. reflexivity.
Defined.

(** A new approval of the service is pending: it can be looked up under
    its id, which starts with [approval-], it is neither approved nor
    rejected, and the other approvals are untouched. *)
Theorem service_createApproval_is_pending suffix t tn ta cp sid
    (m : gmap string PendingApproval) :
  let r := createApproval suffix t tn ta cp sid m in
  id (snd r) = ("approval-" +:+ suffix)%string
  /\ getApproval (id (snd r)) (fst r) = Some (snd r)
  /\ status (snd r) = StatusPending
  /\ isApproved (id (snd r)) (fst r) = false
  /\ isRejected (id (snd r)) (fst r) = false
  /\ (forall other, other <> id (snd r) ->
                    getApproval other (fst r) = getApproval other m).
Proof.
  unfold createApproval, getApproval, isApproved, isRejected. simpl.
  rewrite lookup_insert_eq. simpl. repeat split.
  intros other Ho. by rewrite lookup_insert_ne.
Qed.

Lemma service_createApproval_is_pending_witness :
  getApproval "approval-x1"
    (fst (createApproval "x2" 2000 "firecrawl_crawl" JNull "cp2" "s1"
            (fst (createApproval "x1" 1000 "firecrawl_map" JNull "cp1" "s1" ∅))))
  = getApproval "approval-x1"
      (fst (createApproval "x1" 1000 "firecrawl_map" JNull "cp1" "s1" ∅)).
Proof.
  apply (proj2 (proj2 (proj2 (proj2 (proj2
           (service_createApproval_is_pending "x2" 2000 "firecrawl_crawl"
              JNull "cp2" "s1"
              (fst (createApproval "x1" 1000 "firecrawl_map" JNull "cp1"
                      "s1" ∅)))))))).
  discriminate.
Defined.

(** The retention sweep of the service keeps exactly the approvals that
    were created at most one hour (3600000 ms) before the time of the
    sweep, whatever their status; an approval created exactly one hour
    before is kept; and sweeping twice at the same time is sweeping
    once. *)
Theorem service_cleanup_keeps_the_last_hour t (m : gmap string PendingApproval) :
  (forall aid a,
      cleanup t m !! aid = Some a
      <-> m !! aid = Some a /\ t - 3600000 <= createdAt a)
  /\ (forall aid, m !! aid = None -> cleanup t m !! aid = None)
  /\ cleanup t (cleanup t m) = cleanup t m.
Proof.
  assert (forall aid a,
      cleanup t m !! aid = Some a
      <-> m !! aid = Some a /\ t - 3600000 <= createdAt a) as K.
  { intros aid a. unfold cleanup. rewrite map_lookup_filter_Some. simpl.
    split; intros [? ?]; split; auto; lia. }
  split; [exact K|]. split.
  - intros aid H. destruct (cleanup t m !! aid) eqn:E; [|done].
    apply K in E as [E _]. congruence.
  - unfold cleanup. apply map_eq. intros aid. apply option_eq. intros a.
    rewrite !map_lookup_filter_Some. simpl. tauto.
Qed.

Lemma service_cleanup_keeps_the_last_hour_witness :
  let m := fst (createApproval "x1" 1000 "firecrawl_map" JNull "cp1" "s1" ∅) in
  cleanup 3601000 m !! "approval-x1"%string
  = Some (snd (createApproval "x1" 1000 "firecrawl_map" JNull "cp1" "s1" ∅)).
Proof.
  intros m.
  apply (proj1 (service_cleanup_keeps_the_last_hour 3601000 m)).
  split; [vm_compute; reflexivity | vm_compute; discriminate].
Defined.

(** The helper [checkToolApproval] asks for approval exactly when
    approval is required and the tool is one of the four listed firecrawl
    tools: then it creates one pending approval and returns its id, tool,
    arguments and checkpoint with [needsApproval = true]; otherwise it
    returns nothing and leaves the service as it was. Every listed tool
    has the [firecrawl_] prefix that the gate of [runAnalysis] tests. *)
Theorem checkToolApproval_gates_listed_tools suffix t req tn ta cp sid
    (m : gmap string PendingApproval) :
  (req = false \/ ~ In tn firecrawlTools ->
   checkToolApproval suffix t req tn ta cp sid m = (m, None))
  /\ (req = true -> In tn firecrawlTools ->
      checkToolApproval suffix t req tn ta cp sid m
      = (fst (createApproval suffix t tn ta cp sid m),
         Some {| needsApproval := true;
                 res_approvalId := "approval-" +:+ suffix;
                 res_toolName := tn; res_toolArgs := ta;
                 res_checkpointId := cp |}))
  /\ (In tn firecrawlTools -> Run.startsWith tn "firecrawl_" = true).
Proof.
  unfold checkToolApproval.
  assert (existsb (String.eqb tn) firecrawlTools = true <-> In tn firecrawlTools)
    as K.
  { rewrite existsb_exists. split.
    - intros (x & Hx & E). apply String.eqb_eq in E. by subst.
    - intros H. exists tn. split; [done|]. apply String.eqb_refl. }
  split; [|split].
  - intros [-> | H]; [done|].
    assert (existsb (String.eqb tn) firecrawlTools = false) as ->.
    { apply not_true_is_false. intros E. apply H, K, E. }
    by rewrite andb_false_r.
  - intros -> H. apply K in H. rewrite H. reflexivity.
  - simpl. intros [<- | [<- | [<- | [<- | []]]]]; reflexivity.
Qed.

Lemma checkToolApproval_gates_listed_tools_witness :
  checkToolApproval "x1" 1000 true "firecrawl_extract" JNull "cp1" "s1" ∅
  = (∅, None).
Proof.
  apply (proj1 (checkToolApproval_gates_listed_tools "x1" 1000 true
                  "firecrawl_extract" JNull "cp1" "s1" ∅)).
  right. simpl. intros [H | [H | [H | [H | []]]]]; discriminate.
Defined.

End ServiceFacts.

(** * Further properties of the scheduler *)

Section SchedulerExtras.
Import Scheduler.

Lemma extract_self w : extract (taskOf w) [w] = Some (w, []).
Proof. simpl. by rewrite Nat.eqb_refl. Qed.

Lemma schedInv_phase sub s :
  schedInv sub s ->
  (isTaskRunning s = false /\ awaiting s = [] /\ unwinding s = []
   /\ taskQueue s = [])
  \/ (isTaskRunning s = true /\ exists w,
        (awaiting s = [w] /\ unwinding s = [])
        \/ (awaiting s = [] /\ unwinding s = [w])).
Proof.
  intros (_ & R & _). destruct (isTaskRunning s).
  - right. split; [done|].
    destruct (awaiting s) as [|w [|? ?]], (unwinding s) as [|u [|? ?]];
      simpl in R; try lia; eauto.
  - left. tauto.
Qed.

(** Tasks finish in the order in which they start: the tasks started are
    those finished, followed by the one in flight. *)
Lemma started_finished_step sub s i s' :
  schedInv sub s ->
  startedIds (trace s) = finishedIds (trace s) ++ map taskOf (awaiting s) ->
  step s i = Some s' ->
  startedIds (trace s') = finishedIds (trace s') ++ map taskOf (awaiting s').
Proof.
  intros HI F H.
  destruct (schedInv_phase _ _ HI)
    as [(Hr & Ha & Hu & Hq) | (Hr & w & [[Ha Hu] | [Ha Hu]])];
    rewrite Ha in F; simpl in F; rewrite ?app_nil_r in F;
    destruct i as [id|id|id]; simpl in H; unfold executeTask in H;
    rewrite ?Hr, ?Ha, ?Hu in H; simpl in H; try discriminate;
    try (destruct (Nat.eqb_spec (taskOf w) id); [|discriminate]);
    simplify_eq; unfold finallyBlock, executeTask; simpl;
    try match goal with
        | |- context [match taskQueue ?x with _ => _ end] =>
            destruct (taskQueue x), w; simpl
        end;
    rewrite ?startedIds_app, ?finishedIds_app, ?resolutions_started,
      ?resolutions_finished, ?Ha, ?F; simpl;
    rewrite ?resolutions_started, ?resolutions_finished;
    rewrite ?app_nil_r, <- ?app_assoc; done.
Qed.

Lemma started_finished_steps ins sub s s' :
  schedInv sub s ->
  startedIds (trace s) = finishedIds (trace s) ++ map taskOf (awaiting s) ->
  steps s ins = Some s' ->
  startedIds (trace s') = finishedIds (trace s') ++ map taskOf (awaiting s').
Proof.
  revert sub s. induction ins as [|i ins IH]; simpl; intros sub s HI F H.
  - by simplify_eq.
  - destruct (step s i) as [s1|] eqn:E; [|done].
    eapply IH; [| |exact H].
    + eapply schedInv_step; eauto.
    + eapply started_finished_step; eauto.
Qed.

Lemma steps_app ins ins' s s1 :
  steps s ins = Some s1 -> steps s (ins ++ ins') = steps s1 ins'.
Proof.
  revert s. induction ins as [|i ins IH]; simpl; intros s H.
  - by simplify_eq.
  - destruct (step s i); [eauto|done].
Qed.

Lemma submittedIds_app ins ins' :
  submittedIds (ins ++ ins') = submittedIds ins ++ submittedIds ins'.
Proof.
  induction ins as [|i ins IH]; simpl; [done|]. destruct i; simpl; by rewrite ?IH.
Qed.

(** From a state whose running call has had its task settled, the queue
    drains by settlements and resumptions alone. *)
Lemma drain_unwinding n :
  forall sub s w,
    schedInv sub s -> unwinding s = [w] -> length (taskQueue s) = n ->
    exists more s',
      submittedIds more = [] /\ steps s more = Some s'
      /\ isTaskRunning s' = false.
Proof.
  induction n as [|n IH]; intros sub s w HI Hu Hq.
  - exists [Resumes (taskOf w)]. cbn [steps step]. rewrite Hu, extract_self.
    destruct (taskQueue s) eqn:Eq; [|done].
    eexists. split; [done|]. split; [reflexivity|].
    unfold finallyBlock. simpl. rewrite ?Eq. by destruct w.
  - destruct (taskQueue s) as [|next q] eqn:Eq; [done|]. simpl in Hq.
    assert (awaiting s = []) as Ha.
    { destruct (schedInv_phase _ _ HI)
        as [(_ & _ & Hu' & _) | (_ & w' & [[_ Hu'] | [Ha' _]])];
        congruence. }
    assert (exists s1, step s (Resumes (taskOf w)) = Some s1
                       /\ awaiting s1 = [next] /\ unwinding s1 = []
                       /\ taskQueue s1 = q) as (s1 & E1 & Ha1 & Hu1 & Hq1).
    { cbn [step]. rewrite Hu, extract_self. eexists. split; [reflexivity|].
      unfold finallyBlock, executeTask. simpl. rewrite Eq, Ha. simpl.
      by destruct w. }
    pose proof (schedInv_step _ _ _ _ HI E1) as HI1.
    assert (exists s2, step s1 (Settles (taskOf next)) = Some s2
                       /\ unwinding s2 = [next] /\ taskQueue s2 = q)
      as (s2 & E2 & Hu2 & Hq2).
    { cbn [step]. rewrite Ha1, extract_self. eexists. split; [reflexivity|].
      simpl. by rewrite Hu1. }
    pose proof (schedInv_step _ _ _ _ HI1 E2) as HI2.
    destruct (IH _ s2 next HI2 Hu2) as (more & s' & Hm & Hs & Hr);
      [congruence|].
    exists (Resumes (taskOf w) :: Settles (taskOf next) :: more), s'.
    split; [exact Hm|]. split; [|exact Hr].
    cbn [steps]. rewrite E1. cbn [steps]. rewrite E2. exact Hs.
Qed.

(** No submission is lost or starved. From every state the process
    reaches, if the running tasks keep settling and resuming, with no
    further submission, the process comes to rest with no task running
    and an empty queue, and by then every submitted task has been started
    and has finished, in submission order. *)
Theorem every_submission_gets_its_turn ins s :
  steps initial ins = Some s ->
  exists more s',
    submittedIds more = []
    /\ steps initial (ins ++ more) = Some s'
    /\ isTaskRunning s' = false
    /\ taskQueue s' = []
    /\ startedIds (trace s') = submittedIds ins
    /\ finishedIds (trace s') = submittedIds ins.
Proof.
  intros H.
  pose proof (schedInv_steps ins [] initial s schedInv_initial H) as HI.
  simpl in HI.
  assert (exists more s',
             submittedIds more = [] /\ steps s more = Some s'
             /\ isTaskRunning s' = false) as (more & s' & Hm & Hs & Hr).
  { destruct (schedInv_phase _ _ HI)
      as [(Hr & _) | (Hr & w & [[Ha Hu] | [Ha Hu]])].
    - exists [], s. by simpl.
    - assert (exists s1, step s (Settles (taskOf w)) = Some s1
                         /\ unwinding s1 = [w]) as (s1 & E1 & Hu1).
      { cbn [step]. rewrite Ha, extract_self. eexists. split; [reflexivity|].
        simpl. by rewrite Hu. }
      pose proof (schedInv_step _ _ _ _ HI E1) as HI1.
      destruct (drain_unwinding _ _ s1 w HI1 Hu1 eq_refl)
        as (more & s' & Hm & Hs & Hr').
      exists (Settles (taskOf w) :: more), s'.
      split; [exact Hm|]. split; [|exact Hr'].
      cbn [steps]. rewrite E1. exact Hs.
    - by eapply drain_unwinding. }
  exists more, s'.
  assert (steps initial (ins ++ more) = Some s') as Hall
    by (by rewrite (steps_app _ _ _ _ H)).
  pose proof (schedInv_steps _ [] initial s' schedInv_initial Hall)
    as (_ & R & O & _).
  pose proof (started_finished_steps _ [] initial s' schedInv_initial
                eq_refl Hall) as F.
  rewrite Hr in R. destruct R as (Ha & _ & Hq).
  rewrite Hq, app_nil_r in O. rewrite Ha, app_nil_r in F.
  rewrite submittedIds_app, Hm, app_nil_r in O. simpl in O.
  repeat split; auto; congruence.
Qed.

Lemma every_submission_gets_its_turn_witness :
  exists more s',
    submittedIds more = []
    /\ steps initial ([Submit 1; Submit 2; Submit 3; Settles 1] ++ more)
       = Some s'
    /\ finishedIds (trace s') = [1; 2; 3]%nat.
Proof.
  set (ins := [Submit 1; Submit 2; Submit 3; Settles 1]).
  destruct (steps initial ins) as [s|] eqn:E; [|vm_compute in E; discriminate].
  destruct (every_submission_gets_its_turn ins s E)
    as (more & s' & Hm & Hs & _ & _ & _ & Hf).
  exists more, s'. split; [exact Hm|]. split; [exact Hs | exact Hf].
Defined.

End SchedulerExtras.
